(** * ID Site redirect issuance and callback verification

    A shallow embedding of [Application.build_id_site_redirect_url] and
    [Application.handle_id_site_callback] from
    [stormpath/resources/application.py], together with the parts of the
    Python runtime and of the PyJWT library that the two methods call.

    Layout: Python values and dictionaries; string helpers ([str.split],
    [urlparse(..).query], [urllib.urlencode]); the JWT library; the
    collaborators of the application object (API keys, nonce cache, account
    collection); the two methods; a two-thread interleaving semantics of the
    callback handler; then the theorems. *)

From Stdlib Require Import ZArith Ascii String List Lia.
From stdpp Require Import base option countable strings gmap list.

Local Open Scope Z_scope.

(** ** Python values *)

(** The JSON-representable scalars that occur as claim values (§3 of the
    specification): [None], booleans, integers (timestamps) and strings. *)
Inductive pyval :=
| PNone
| PBool (b : bool)
| PInt (n : Z)
| PStr (s : string).

Global Instance pyval_eq_dec : EqDecision pyval.
Proof. solve_decision. Defined.

Global Instance pyval_countable : Countable pyval.
Proof.
  refine (inj_countable'
    (fun v => match v with
              | PNone => inl (inl tt)
              | PBool b => inl (inr b)
              | PInt n => inr (inl n)
              | PStr s => inr (inr s)
              end)
    (fun x => match x with
              | inl (inl _) => PNone
              | inl (inr b) => PBool b
              | inr (inl n) => PInt n
              | inr (inr s) => PStr s
              end) _).
  by intros [].
Defined.

(** Python truth value testing: [None], [False], [0] and [''] are false. *)
Definition truthy (v : pyval) : bool :=
  match v with
  | PNone => false
  | PBool b => b
  | PInt n => negb (n =? 0)
  | PStr s => negb (bool_decide (s = ""))
  end.

(** A Python [dict] with string keys. *)
Abbreviation pydict := (gmap string pyval).

(** [d.get(k)]: the value, or [None] when the key is absent. *)
Definition dict_get (d : pydict) (k : string) : pyval :=
  default PNone (d !! k).

(** Truth value of a dictionary: empty dictionaries are false. *)
Definition dict_truthy (d : pydict) : bool :=
  negb (bool_decide (d = ∅)).

(** ** Outcomes of a Python call *)

Inductive exn :=
| KeyError (key : string)
| ValueError (msg : string)
| StormpathError (href : pyval).

Inductive outcome (A : Type) :=
| Return (a : A)
| Raise (e : exn).
Arguments Return {A} a.
Arguments Raise {A} e.

(** ** Strings *)

(** [s.split(sep)] for a one-character separator: never empty, one more
    piece than there are separators. *)
Fixpoint split (sep : ascii) (s : string) : list string :=
  match s with
  | EmptyString => [EmptyString]
  | String c s' =>
      if bool_decide (c = sep) then EmptyString :: split sep s'
      else match split sep s' with
           | piece :: rest => String c piece :: rest
           | [] => [String c EmptyString]
           end
  end.

(** [s.split(sep, 1)[0]] and the remainder after the first separator, if
    there is one. *)
Fixpoint partition (sep : ascii) (s : string) : string * option string :=
  match s with
  | EmptyString => (EmptyString, None)
  | String c s' =>
      if bool_decide (c = sep) then (EmptyString, Some s')
      else let '(before, after) := partition sep s' in (String c before, after)
  end.

(** [urlparse(url).query]: the fragment is cut off at the first [#], then
    the query is whatever follows the first [?]. *)
Definition urlparse_query (url : string) : string :=
  let '(url, _) := partition "#" url in
  let '(_, query) := partition "?" url in
  default EmptyString query.

Definition hex_digit (n : N) : ascii :=
  match n with
  | 0 => "0" | 1 => "1" | 2 => "2" | 3 => "3" | 4 => "4" | 5 => "5"
  | 6 => "6" | 7 => "7" | 8 => "8" | 9 => "9" | 10 => "A" | 11 => "B"
  | 12 => "C" | 13 => "D" | 14 => "E" | _ => "F"
  end%N%char.

(** Characters that [urllib.quote_plus] leaves alone: letters, digits and
    [_.-]. *)
Definition always_safe (c : ascii) : bool :=
  let n := N_of_ascii c in
  ((65 <=? n) && (n <=? 90) || (97 <=? n) && (n <=? 122) ||
   (48 <=? n) && (n <=? 57) ||
   bool_decide (c = "_"%char) || bool_decide (c = "."%char) ||
   bool_decide (c = "-"%char))%N.

Fixpoint quote_plus (s : string) : string :=
  match s with
  | EmptyString => EmptyString
  | String c s' =>
      if always_safe c then String c (quote_plus s')
      else if bool_decide (c = " "%char) then String "+" (quote_plus s')
      else let n := N_of_ascii c in
           String "%" (String (hex_digit (n / 16)) (String (hex_digit (n mod 16))
             (quote_plus s')))
  end.

(** [urllib.urlencode] of a one-entry dictionary. *)
Definition urlencode1 (k v : string) : string :=
  quote_plus k +:+ "=" +:+ quote_plus v.

Fixpoint url_safe (s : string) : bool :=
  match s with
  | EmptyString => true
  | String c s' => always_safe c && url_safe s'
  end.

(** Whether the character occurs in the string ([c in s]). *)
Fixpoint occurs (c : ascii) (s : string) : bool :=
  match s with
  | EmptyString => false
  | String c' s' => bool_decide (c' = c) || occurs c s'
  end.

(** ** The JWT library

    [jwt.encode] and [jwt.decode] of PyJWT, for the HMAC family of
    algorithms.  A token is its header, its payload and its signature; the
    signature is kept symbolic, as the keyed MAC of the signing input (header
    and payload) or as any other byte string. *)

Inductive algorithm := HS256 | HS384 | HS512.

Global Instance algorithm_eq_dec : EqDecision algorithm.
Proof. solve_decision. Defined.

Definition alg_name (a : algorithm) : string :=
  match a with HS256 => "HS256" | HS384 => "HS384" | HS512 => "HS512" end.

(** The table [signing_methods] / [verify_methods], indexed by name. *)
Definition verify_methods (name : string) : option algorithm :=
  if bool_decide (name = "HS256") then Some HS256
  else if bool_decide (name = "HS384") then Some HS384
  else if bool_decide (name = "HS512") then Some HS512
  else None.

Inductive signature :=
| Hmac (a : algorithm) (key : string) (header payload : pydict)
| Bytes (raw : string).

Global Instance signature_eq_dec : EqDecision signature.
Proof. solve_decision. Defined.

Record jws := { header : pydict; payload : pydict; crypto : signature }.

Global Instance jws_eq_dec : EqDecision jws.
Proof. solve_decision. Defined.

(** The wire format: [compact] is the serialisation written by
    [jwt.encode] (base64url segments joined by dots), [load] is the parser
    [jwt.load], which fails with [DecodeError] on anything else. *)
Class JwtCodec := {
  compact : jws -> string;
  load : string -> option jws;
  load_compact : forall j, load (compact j) = Some j;
  compact_url_safe : forall j, url_safe (compact j) = true
}.

Inductive jwt_error := DecodeError | ExpiredSignature.

(** [v < t] for a claim value [v] and an integer [t], as CPython 2 orders
    mixed types: [None] is below every number, booleans are the integers 0
    and 1, strings are above every number. *)
Definition py_lt_int (v : pyval) (t : Z) : bool :=
  match v with
  | PNone => true
  | PBool b => Z.b2z b <? t
  | PInt n => n <? t
  | PStr _ => false
  end.

(** The expiry test of [verify_signature]:
    ['exp' in payload and payload['exp'] < utc_timestamp]. *)
Definition expired (payload : pydict) (now : Z) : bool :=
  match payload !! "exp" with
  | Some e => py_lt_int e now
  | None => false
  end.

Section JWT.
Context {codec : JwtCodec}.

(** [jwt.encode(payload, key, algorithm)]. *)
Definition jwt_encode (payload : pydict) (key : string) (a : algorithm) : string :=
  let header : pydict := {[ "typ" := PStr "JWT"; "alg" := PStr (alg_name a) ]} in
  compact {| header := header; payload := payload;
             crypto := Hmac a key header payload |}.

(** [jwt.decode(token, verify=False)]. *)
Definition jwt_decode_unverified (token : string) : jwt_error + pydict :=
  match load token with
  | None => inl DecodeError
  | Some j => inr (payload j)
  end.

(** [verify_signature]: the method is looked up under the name found in
    the token's header, the expected MAC is recomputed with it, and the
    expiry is tested last. *)
Definition verify_signature (j : jws) (key : string) (now : Z) : option jwt_error :=
  match header j !! "alg" with
  | Some (PStr name) =>
      match verify_methods name with
      | Some a =>
          if bool_decide (crypto j = Hmac a key (header j) (payload j))
          then if expired (payload j) now then Some ExpiredSignature else None
          else Some DecodeError
      | None => Some DecodeError
      end
  | _ => Some DecodeError
  end.

(** [jwt.decode(token, key)], called when the clock reads [now]. *)
Definition jwt_decode (token key : string) (now : Z) : jwt_error + pydict :=
  match load token with
  | None => inl DecodeError
  | Some j =>
      match verify_signature j key now with
      | Some e => inl e
      | None => inr (payload j)
      end
  end.
End JWT.

(** ** Collaborators of the application object *)

Module ApiKey.
Record t := { id : string; secret : string }.
End ApiKey.

Module Account.
Record t := { href : pyval; sp_http_status : Z }.
End Account.

Module Nonce.
Record t := { href : string; value : pyval }.
End Nonce.

Module IdSiteCallbackResult.
Record t := { account : Account.t; state : pyval }.
End IdSiteCallbackResult.

(** The receiver [self] of the two methods: its [href], the key lookup
    [self.api_keys.get_key(client_id=..)] and the account collection behind
    [self.accounts.get(..)], which yields nothing when the retrieval of the
    account fails. *)
Module Application.
Record t := {
  href : string;
  get_key : pyval -> option ApiKey.t;
  get_account : pyval -> option Account.t
}.
End Application.

(** Modelled from the spec: the data store [self._store] (module
    [stormpath.data_store]) is not among the sources.  §2 describes the
    nonce store as a key-value cache with get/put semantics; [requested]
    additionally records, in order, the resources the store was asked to
    retrieve. *)
Record DataStore := {
  cache : gmap string pydict;
  requested : list pyval
}.

Definition _cache_get (st : DataStore) (href : string) : option pydict :=
  cache st !! href.

Definition _cache_put (st : DataStore) (href : string) (data : pydict) : DataStore :=
  {| cache := <[href := data]> (cache st); requested := requested st |}.

Definition get_resource (st : DataStore) (href : pyval) : DataStore :=
  {| cache := cache st; requested := requested st ++ [href] |}.

(** Truth value of what [_cache_get] returned ([None] on a miss). *)
Definition cached_truthy (r : option pydict) : bool :=
  match r with
  | Some d => dict_truthy d
  | None => false
  end.

(** ** Method bodies

    A method body runs against the data store and either finishes, by
    [return] or [raise], or carries on with a value. *)
Definition method (R A : Type) : Type :=
  DataStore -> (outcome R + A) * DataStore.

Definition pure {R A} (a : A) : method R A :=
  fun st => (inr a, st).

Definition finish {R A} (o : outcome R) : method R A :=
  fun st => (inl o, st).

Definition bind {R A B} (m : method R A) (k : A -> method R B) : method R B :=
  fun st =>
    match m st with
    | (inl o, st') => (inl o, st')
    | (inr a, st') => k a st'
    end.

Declare Scope method_scope.
Delimit Scope method_scope with method.
Notation "'let*' x := m 'in' k" := (bind m (fun x => k))
  (at level 10, x pattern, m at level 100, k at level 200) : method_scope.
Notation "m ;; k" := (bind m (fun _ => k))
  (at level 100, k at level 200, right associativity) : method_scope.

(** [return v] and [raise e]. *)
Definition py_return {R A} (v : R) : method R A := finish (Return v).
Definition py_raise {R A} (e : exn) : method R A := finish (Raise e).

(** A value that is there, or else the given way out of the method. *)
Definition or_else {R A} (x : option A) (o : outcome R) : method R A :=
  match x with
  | Some a => pure a
  | None => finish o
  end.

(** [d[k]], raising [KeyError] on a missing key. *)
Definition getitem {R} (d : pydict) (k : string) : method R pyval :=
  or_else (d !! k) (Raise (KeyError k)).

Definition cache_get {R} (href : string) : method R (option pydict) :=
  fun st => (inr (_cache_get st href), st).

Definition cache_put {R} (href : string) (data : pydict) : method R unit :=
  fun st => (inr tt, _cache_put st href data).

(** [self.accounts.get(href)] followed by the attribute access that forces
    the retrieval. *)
Definition fetch_account {R} (self : Application.t) (href : pyval) : method R Account.t :=
  fun st =>
    let st' := get_resource st href in
    match Application.get_account self href with
    | Some a => (inr a, st')
    | None => (inl (Raise (StormpathError href)), st')
    end.

(** The result of a whole method body. *)
Definition run {R} (m : method R R) (st : DataStore) : outcome R * DataStore :=
  match m st with
  | (inl o, st') => (o, st')
  | (inr r, st') => (Return r, st')
  end.

(** ** The two methods of [Application] *)

Definition SSO_ENDPOINT : string := "https://api.stormpath.com/sso".

Section IdSite.
Context {codec : JwtCodec}.

(** The class [Nonce] (module [stormpath.nonce]) is not among the sources:
    [Nonce(value)] keeps the value and derives the cache key [href] from it;
    how it does so is left open. *)
Variable nonce_href : pyval -> string.

Definition Nonce (value : pyval) : Nonce.t :=
  {| Nonce.href := nonce_href value; Nonce.value := value |}.

(** [build_id_site_redirect_url(self, api_key, callback_uri, path, state)].
    [utcnow] is what [datetime.utcnow()] reads (as the timestamp that
    [jwt.encode] turns it into) and [uuid4_hex] is what
    [uuid4().get_hex()] draws.  The method does not touch [self._store]. *)
Definition build_id_site_redirect_url (self : Application.t)
    (utcnow : Z) (uuid4_hex : string)
    (api_key : ApiKey.t) (callback_uri : string) (path state : pyval)
  : outcome string :=
  let body : pydict :=
    {[ "iat" := PInt utcnow;
       "jti" := PStr uuid4_hex;
       "iss" := PStr (ApiKey.id api_key);
       "sub" := PStr (Application.href self);
       "cb_uri" := PStr callback_uri ]} in
  let body := if truthy path then <["path" := path]> body else body in
  let body := if truthy state then <["state" := state]> body else body in
  let jwt_signature := jwt_encode body (ApiKey.secret api_key) HS256 in
  let url_params := urlencode1 "jwtRequest" jwt_signature in
  Return (SSO_ENDPOINT +:+ "?" +:+ url_params).

Abbreviation result := (option IdSiteCallbackResult.t).

(** [handle_id_site_callback], lines 198-233: from the URL to the replay
    check.  This part only reads the store. *)
Definition callback_check (self : Application.t) (now : Z) (url_response : string)
  : method result (Nonce.t * pydict) :=
  (let* jwt_response :=
     or_else (split "=" (urlparse_query url_response) !! 1%nat) (Return None) in
   let* decoded_data :=
     match jwt_decode_unverified jwt_response with
     | inl _ => py_return None
     | inr d => pure d
     end in
   let api_key_id := dict_get decoded_data "aud" in
   if negb (truthy api_key_id) then py_return None else
   let* api_key := or_else (Application.get_key self api_key_id) (Return None) in
   (* validate signature *)
   let* decoded_data :=
     match jwt_decode jwt_response (ApiKey.secret api_key) now with
     | inl _ => py_return None
     | inr d => pure d
     end in
   let* irt := getitem decoded_data "irt" in
   let nonce := Nonce irt in
   (* check if nonce is in cache already *)
   let* hit := cache_get (Nonce.href nonce) in
   if cached_truthy hit then py_raise (ValueError "JWT has already been used.")
   else pure (nonce, decoded_data))%method.

(** [handle_id_site_callback], lines 236-249: the nonce is stored, the
    remaining claims are read and the account is retrieved. *)
Definition callback_commit (self : Application.t) (nonce : Nonce.t) (decoded_data : pydict)
  : method result IdSiteCallbackResult.t :=
  (cache_put (Nonce.href nonce) {[ "value" := Nonce.value nonce ]} ;;
   let* issuer := getitem decoded_data "iss" in
   let* account_href := getitem decoded_data "sub" in
   let* is_new_account := getitem decoded_data "isNewSub" in
   let* state := getitem decoded_data "state" in
   let* account := fetch_account self account_href in
   let account :=
     {| Account.href := Account.href account;
        Account.sp_http_status := if truthy is_new_account then 201 else 200 |} in
   pure {| IdSiteCallbackResult.account := account;
           IdSiteCallbackResult.state := state |})%method.

(** [handle_id_site_callback(self, url_response)], called when the clock
    reads [now]. *)
Definition handle_id_site_callback (self : Application.t) (now : Z) (url_response : string)
    (st : DataStore) : outcome result * DataStore :=
  run (let* checked := callback_check self now url_response in
       let* r := callback_commit self (fst checked) (snd checked) in
       pure (Some r))%method st.

(** ** Two callers at once

    Each caller runs the handler in two steps, split where the handler stops
    reading the store and starts writing it; a schedule says whose step is
    next. *)
Inductive thread :=
| Called (now : Z) (url_response : string)
| Checked (nonce : Nonce.t) (decoded_data : pydict)
| Finished (o : outcome result).

Definition thread_step (self : Application.t) (t : thread) (st : DataStore)
  : thread * DataStore :=
  match t with
  | Called now url_response =>
      match callback_check self now url_response st with
      | (inl o, st') => (Finished o, st')
      | (inr (nonce, decoded_data), st') => (Checked nonce decoded_data, st')
      end
  | Checked nonce decoded_data =>
      let '(o, st') :=
        run (let* r := callback_commit self nonce decoded_data in
             pure (Some r))%method st in
      (Finished o, st')
  | Finished o => (Finished o, st)
  end.

Inductive caller := First | Second.

Fixpoint interleave (self : Application.t) (schedule : list caller)
    (t1 t2 : thread) (st : DataStore) : thread * thread * DataStore :=
  match schedule with
  | [] => (t1, t2, st)
  | First :: schedule' =>
      let '(t1', st') := thread_step self t1 st in
      interleave self schedule' t1' t2 st'
  | Second :: schedule' =>
      let '(t2', st') := thread_step self t2 st in
      interleave self schedule' t1 t2' st'
  end.

(** [n] consecutive steps of one caller. *)
Fixpoint steps (self : Application.t) (n : nat) (t : thread) (st : DataStore)
  : thread * DataStore :=
  match n with
  | O => (t, st)
  | S n' => let '(t', st') := thread_step self t st in steps self n' t' st'
  end.

Definition other (c : caller) : caller :=
  match c with First => Second | Second => First end.

Definition succeeded (t : thread) : bool :=
  match t with
  | Finished (Return (Some _)) => true
  | _ => false
  end.

(** ** Vocabulary for the statements *)

(** The token the handler takes out of the callback URL
    ([urlparse(url_response).query.split('=')[1]]), if there is one. *)
Definition callback_token (url_response : string) : option string :=
  split "=" (urlparse_query url_response) !! 1%nat.

(** The failure kinds of §7 of the specification. *)
Inductive failure :=
| Malformed
| Undecodable
| MissingAudience
| UnknownSigner
| BadSignature
| Expired
| MissingClaim (name : string)
| Replayed.

Global Instance failure_eq_dec : EqDecision failure.
Proof. solve_decision. Defined.

(** The kinds that the handler answers with a plain [None]. *)
Definition silent (k : failure) : bool :=
  match k with
  | Malformed | Undecodable | MissingAudience | UnknownSigner
  | BadSignature | Expired => true
  | MissingClaim _ | Replayed => false
  end.

(** The first of the claims [names] that the payload lacks. *)
Fixpoint first_missing (d : pydict) (names : list string) : option string :=
  match names with
  | [] => None
  | k :: names' => if bool_decide (d !! k = None) then Some k else first_missing d names'
  end.

(** Which failure kind a callback falls under, if any, deciding each kind
    by the test the handler applies for it and in the handler's order. *)
Definition failure_of (self : Application.t) (now : Z) (url_response : string)
    (st : DataStore) : option failure :=
  match callback_token url_response with
  | None => Some Malformed
  | Some tok =>
  match load tok with
  | None => Some Undecodable
  | Some j =>
  let aud := dict_get (payload j) "aud" in
  if negb (truthy aud) then Some MissingAudience else
  match Application.get_key self aud with
  | None => Some UnknownSigner
  | Some api_key =>
  match verify_signature j (ApiKey.secret api_key) now with
  | Some DecodeError => Some BadSignature
  | Some ExpiredSignature => Some Expired
  | None =>
  match payload j !! "irt" with
  | None => Some (MissingClaim "irt")
  | Some irt =>
  if cached_truthy (_cache_get st (nonce_href irt)) then Some Replayed
  else MissingClaim <$> first_missing (payload j) ["iss"; "sub"; "isNewSub"; "state"]
  end end end end end.

(** The token of the callback passes signature verification under the key
    that its [aud] claim resolves to. *)
Definition signature_verified (self : Application.t) (now : Z) (url_response : string)
  : Prop :=
  exists tok j api_key,
    callback_token url_response = Some tok /\ load tok = Some j /\
    Application.get_key self (dict_get (payload j) "aud") = Some api_key /\
    jwt_decode tok (ApiKey.secret api_key) now = inr (payload j).

(** The token of the callback has no usable [aud] claim, or one that
    resolves to no key, or a signature that the resolved key rejects. *)
Definition unauthenticated (self : Application.t) (now : Z) (url_response : string)
  : Prop :=
  exists tok j,
    callback_token url_response = Some tok /\ load tok = Some j /\
    (payload j !! "aud" = None \/
     Application.get_key self (dict_get (payload j) "aud") = None \/
     exists api_key,
       Application.get_key self (dict_get (payload j) "aud") = Some api_key /\
       verify_signature j (ApiKey.secret api_key) now = Some DecodeError).

Definition replay_message : string := "JWT has already been used.".

(** The claims that [build_id_site_redirect_url] signs. *)
Definition redirect_claims (self : Application.t) (utcnow : Z) (uuid4_hex : string)
    (api_key : ApiKey.t) (callback_uri : string) (path state : pyval) : pydict :=
  let body : pydict :=
    {[ "iat" := PInt utcnow;
       "jti" := PStr uuid4_hex;
       "iss" := PStr (ApiKey.id api_key);
       "sub" := PStr (Application.href self);
       "cb_uri" := PStr callback_uri ]} in
  let body := if truthy path then <["path" := path]> body else body in
  if truthy state then <["state" := state]> body else body.

(** The URL that carries the token [tok] to the hosted login page. *)
Definition redirect_url (tok : string) : string :=
  SSO_ENDPOINT +:+ "?" +:+ "jwtRequest" +:+ "=" +:+ tok.

End IdSite.

(** ** Other methods of [Application] *)

(** [get_provider_account(self, provider, **provider_kwargs)]: the keyword
    arguments are copied, [provider_id] is set in the copy, and the copy is
    sent to [self.accounts.create] under [provider_data].  [create] stands
    for [self.accounts.create]. *)
Definition get_provider_account {A : Type} (create : gmap string pydict -> A)
    (provider : pyval) (provider_kwargs : pydict) : A :=
  let provider_data := provider_kwargs in
  let provider_data := <["provider_id" := provider]> provider_data in
  create {[ "provider_data" := provider_data ]}.

Module PasswordResetToken.
(** [token.account], as far as [reset_account_password] looks at it: its
    [email] and its [repr]. *)
Record account := { email : pyval; repr : string }.
Record t := { account_of : account; value : string }.
End PasswordResetToken.

(** The message of the [ValueError] of [reset_account_password]
    (['...%s' % repr(token.account)]). *)
Definition unrecognized_account (token : PasswordResetToken.t) : string :=
  "Unrecognized account for this application " +:+
  PasswordResetToken.repr (PasswordResetToken.account_of token).

(** [reset_account_password(self, token, password)].  [accounts] is what
    iterating [self.accounts] yields, [build_reset_href] stands for
    [self.password_reset_tokens.build_reset_href], and [created] lists the
    [create_resource] calls the store has received, oldest first. *)
Definition reset_account_password
    (accounts : list PasswordResetToken.account)
    (build_reset_href : PasswordResetToken.t -> string)
    (token : PasswordResetToken.t) (password : pyval)
    (created : list (string * pydict))
  : outcome unit * list (string * pydict) :=
  if negb (bool_decide
        (PasswordResetToken.email (PasswordResetToken.account_of token)
         ∈ map PasswordResetToken.email accounts))
  then (Raise (ValueError (unrecognized_account token)), created)
  else
    let href := build_reset_href token in
    let data : pydict := {[ "password" := password ]} in
    (Return tt, created ++ [(href, data)]).

(** How many steps of a schedule belong to the caller [c]. *)
Fixpoint turns (c : caller) (schedule : list caller) : nat :=
  match schedule with
  | [] => O
  | c' :: schedule' =>
      match c, c' with
      | First, First | Second, Second => S (turns c schedule')
      | _, _ => turns c schedule'
      end
  end.

Section NonceKeys.
Context {codec : JwtCodec}.
Variable nonce_href : pyval -> string.

(** The cache key under which the handler looks for the nonce of a
    callback: the [href] of [Nonce(irt)] for the [irt] claim of the token in
    the URL, if the URL has a token, the token loads and it has that claim. *)
Definition nonce_key_of (url_response : string) : option string :=
  match callback_token url_response with
  | None => None
  | Some tok =>
      match load tok with
      | None => None
      | Some j => nonce_href <$> (payload j !! "irt")
      end
  end.

(** The cache key a caller is concerned with, at each stage. *)
Definition thread_key (t : thread) : option string :=
  match t with
  | Called _ url_response => nonce_key_of url_response
  | Checked nonce _ => Some (Nonce.href nonce)
  | Finished _ => None
  end.

End NonceKeys.

(** ** A wire format

    One way to meet [JwtCodec]: tokens are countable, and a token travels as
    the binary digits of its code.  The examples below run on it. *)

Global Instance algorithm_countable : Countable algorithm.
Proof.
  refine (inj_countable'
    (fun a => match a with HS256 => 0%nat | HS384 => 1%nat | HS512 => 2%nat end)
    (fun n => match n with 0%nat => HS256 | 1%nat => HS384 | _ => HS512 end) _).
  by intros [].
Defined.

Global Instance signature_countable : Countable signature.
Proof.
  refine (inj_countable'
    (fun s => match s with
              | Hmac a key h p => inl (a, key, h, p)
              | Bytes raw => inr raw
              end)
    (fun x => match x with
              | inl (a, key, h, p) => Hmac a key h p
              | inr raw => Bytes raw
              end) _).
  by intros [].
Defined.

Global Instance jws_countable : Countable jws.
Proof.
  refine (inj_countable'
    (fun j => (header j, payload j, crypto j))
    (fun '(h, p, c) => {| header := h; payload := p; crypto := c |}) _).
  by intros [].
Defined.

Fixpoint bits (p : positive) : string :=
  match p with
  | xH => EmptyString
  | xO p' => String "0" (bits p')
  | xI p' => String "1" (bits p')
  end.

Fixpoint unbits (s : string) : option positive :=
  match s with
  | EmptyString => Some xH
  | String c s' =>
      match unbits s' with
      | Some p =>
          if bool_decide (c = "0"%char) then Some (xO p)
          else if bool_decide (c = "1"%char) then Some (xI p)
          else None
      | None => None
      end
  end.

Definition bits_compact (j : jws) : string := bits (encode j).

Definition bits_load (s : string) : option jws :=
  match unbits s with
  | Some p => decode p
  | None => None
  end.

Lemma unbits_bits p : unbits (bits p) = Some p.
Proof. induction p as [p IH|p IH|]; simpl; by rewrite ?IH. Qed.

Lemma bits_url_safe p : url_safe (bits p) = true.
Proof. induction p as [p IH|p IH|]; simpl; by rewrite ?IH. Qed.

Lemma bits_load_compact j : bits_load (bits_compact j) = Some j.
Proof. unfold bits_load, bits_compact. rewrite unbits_bits. apply decode_encode. Qed.

Global Instance bits_codec : JwtCodec := {|
  compact := bits_compact;
  load := bits_load;
  load_compact := bits_load_compact;
  compact_url_safe := fun j => bits_url_safe (encode j)
|}.

(** ** Example data, after the fixtures of the test suite *)

Module Example.

Definition api_key : ApiKey.t := {| ApiKey.id := "ID"; ApiKey.secret := "SECRET" |}.

Definition app : Application.t :=
  {| Application.href := "apphref";
     Application.get_key := fun client_id =>
       if bool_decide (client_id = PStr "ID") then Some api_key else None;
     Application.get_account := fun href =>
       Some {| Account.href := href; Account.sp_http_status := 200 |} |}.

Definition nonce_href (value : pyval) : string :=
  match value with
  | PStr s => "/nonces/" +:+ s
  | _ => "/nonces/"
  end.

Definition irt : string := "6f1c2bd0a0c54c2d9a3f4d2b8e7a9c11".

(** The claims of a callback token, valid until the clock reads 3600. *)
Definition fake_jwt_data : pydict :=
  {[ "exp" := PInt 3600;
     "aud" := PStr "ID";
     "irt" := PStr irt;
     "iss" := PStr "Stormpath";
     "sub" := PStr "acchref";
     "isNewSub" := PBool false;
     "state" := PNone ]}.

Definition empty_store : DataStore := {| cache := ∅; requested := [] |}.

(** The callback URL with a token signed under the application's key, the
    same with a token signed under another key, and the same with a token
    whose header names HS512 instead of HS256. *)
Definition callback_url : string :=
  "http://localhost/?jwtResponse=" +:+ jwt_encode fake_jwt_data "SECRET" HS256.

Definition forged_url : string :=
  "http://localhost/?jwtResponse=" +:+ jwt_encode fake_jwt_data "GUESS" HS256.

Definition token_hs512 : string := jwt_encode fake_jwt_data "SECRET" HS512.

Definition hs512_url : string := "http://localhost/?jwtResponse=" +:+ token_hs512.

(** What a successful call returns, and the store it leaves behind. *)
Definition accepted : IdSiteCallbackResult.t :=
  {| IdSiteCallbackResult.account :=
       {| Account.href := PStr "acchref"; Account.sp_http_status := 200 |};
     IdSiteCallbackResult.state := PNone |}.

Definition store_after : DataStore :=
  {| cache := {[ nonce_href (PStr irt) := {[ "value" := PStr irt ]} ]};
     requested := [PStr "acchref"] |}.

(** The store after two successful calls. *)
Definition store_after_both : DataStore :=
  {| cache := {[ nonce_href (PStr irt) := {[ "value" := PStr irt ]} ]};
     requested := [PStr "acchref"; PStr "acchref"] |}.

Definition jti : string := "0b7d4a1e5c3f4f6e8a2d9c1b7e6f5a40".

End Example.

(** * Theorems *)

(** ** Strings and URLs *)

Lemma app_cons c s t : String c s +:+ t = String c (s +:+ t).
Proof. reflexivity. Qed.

Lemma app_nil s : "" +:+ s = s.
Proof. reflexivity. Qed.

Lemma occurs_app c s t : occurs c (s +:+ t) = occurs c s || occurs c t.
Proof.
  induction s as [|c' s IH]; [done|].
  rewrite app_cons. simpl. by rewrite IH, orb_assoc.
Qed.

Lemma partition_absent sep s :
  occurs sep s = false -> partition sep s = (s, None).
Proof.
  induction s as [|c s IH]; simpl; [done|].
  intros [Hc Hs]%orb_false_elim. by rewrite Hc, (IH Hs).
Qed.

Lemma partition_first sep s1 s2 :
  occurs sep s1 = false -> partition sep (s1 +:+ String sep s2) = (s1, Some s2).
Proof.
  induction s1 as [|c s1 IH]; intros H.
  - rewrite app_nil. simpl. by rewrite bool_decide_eq_true_2.
  - simpl in H. apply orb_false_elim in H as [Hc Hs].
    rewrite app_cons. simpl. by rewrite Hc, (IH Hs).
Qed.

Lemma split_absent sep s :
  occurs sep s = false -> split sep s = [s].
Proof.
  induction s as [|c s IH]; simpl; [done|].
  intros [Hc Hs]%orb_false_elim. by rewrite Hc, (IH Hs).
Qed.

Lemma split_first sep s1 s2 :
  occurs sep s1 = false -> split sep (s1 +:+ String sep s2) = s1 :: split sep s2.
Proof.
  induction s1 as [|c s1 IH]; intros H.
  - rewrite app_nil. simpl. by rewrite bool_decide_eq_true_2.
  - simpl in H. apply orb_false_elim in H as [Hc Hs].
    rewrite app_cons. simpl. by rewrite Hc, (IH Hs).
Qed.

Lemma url_safe_absent sep s :
  always_safe sep = false -> url_safe s = true -> occurs sep s = false.
Proof.
  intros Hsep. induction s as [|c s IH]; [done|]. simpl.
  intros [Hc Hs]%andb_prop. rewrite (IH Hs), orb_false_r.
  apply bool_decide_eq_false_2. intros ->. congruence.
Qed.

Lemma quote_plus_safe s : url_safe s = true -> quote_plus s = s.
Proof.
  induction s as [|c s IH]; [done|]. simpl.
  intros [Hc Hs]%andb_prop. by rewrite Hc, (IH Hs).
Qed.

(** A URL-safe token that is the value of the first query parameter comes
    back out of the URL unchanged. *)
Lemma callback_token_query base name tok :
  occurs "#" base = false -> occurs "?" base = false ->
  occurs "#" name = false -> occurs "=" name = false ->
  url_safe tok = true ->
  callback_token (base +:+ "?" +:+ name +:+ "=" +:+ tok) = Some tok.
Proof.
  intros Hb1 Hb2 Hn1 Hn2 Ht.
  unfold callback_token, urlparse_query.
  rewrite partition_absent.
  2:{ rewrite !occurs_app, Hb1, Hn1. simpl.
      by rewrite (url_safe_absent "#" tok). }
  change (base +:+ "?" +:+ name +:+ "=" +:+ tok)
    with (base +:+ String "?" (name +:+ "=" +:+ tok)).
  rewrite partition_first by done. simpl.
  change (name +:+ "=" +:+ tok) with (name +:+ String "=" tok).
  rewrite split_first by done.
  by rewrite split_absent by (by apply url_safe_absent).
Qed.

(** ** The JWT library *)

Section JWTFacts.
Context {codec : JwtCodec}.

Lemma jwt_decode_unverified_encode body key a :
  jwt_decode_unverified (jwt_encode body key a) = inr body.
Proof. unfold jwt_decode_unverified, jwt_encode. by rewrite load_compact. Qed.

Lemma verify_methods_name a : verify_methods (alg_name a) = Some a.
Proof. by destruct a. Qed.

Lemma verify_methods_inv name a : verify_methods name = Some a -> name = alg_name a.
Proof.
  unfold verify_methods. repeat case_bool_decide; intros; by simplify_eq.
Qed.

(** A token signs under the key it was encoded with, whatever the
    algorithm, until it expires. *)
Lemma jwt_decode_encode body key a now :
  expired body now = false ->
  jwt_decode (jwt_encode body key a) key now = inr body.
Proof.
  intros Hexp. unfold jwt_decode, jwt_encode, verify_signature.
  rewrite load_compact. simpl.
  rewrite lookup_insert_ne, lookup_singleton_eq by done.
  rewrite verify_methods_name, bool_decide_eq_true_2 by done.
  by rewrite Hexp.
Qed.

End JWTFacts.

(** ** The callback handler, step by step *)

Ltac unfold_method :=
  unfold handle_id_site_callback, run, callback_check, callback_commit,
    fetch_account, cache_put, cache_get, getitem, or_else, py_return,
    py_raise, bind, finish, pure in *.

Ltac method_cases :=
  repeat (case_match; simplify_eq/=; try done).

Section HandlerFacts.
Context {codec : JwtCodec}.
Variable nonce_href : pyval -> string.

(** The first part of the handler leaves the store as it found it. *)
Lemma callback_check_frame self now url st :
  snd (callback_check nonce_href self now url st) = st.
Proof. unfold_method. method_cases. Qed.

(** What is known once the first part of the handler has let a callback
    through. *)
Lemma callback_check_inr self now url st n d st' :
  callback_check nonce_href self now url st = (inr (n, d), st') ->
  st' = st /\
  exists tok j api_key irt,
    callback_token url = Some tok /\ load tok = Some j /\ d = payload j /\
    truthy (dict_get (payload j) "aud") = true /\
    Application.get_key self (dict_get (payload j) "aud") = Some api_key /\
    verify_signature j (ApiKey.secret api_key) now = None /\
    payload j !! "irt" = Some irt /\ n = Nonce nonce_href irt /\
    cached_truthy (_cache_get st (nonce_href irt)) = false.
Proof.
  unfold_method. unfold jwt_decode_unverified, jwt_decode, callback_token.
  intros H. method_cases.
  split; [done|]. eexists _, _, _, _. repeat split; eauto.
  by destruct (truthy _).
Qed.

(** Whatever the first part of the handler ends with, it is [None], the
    [KeyError] for [irt], or the replay error. *)
Lemma callback_check_inl self now url st o st' :
  callback_check nonce_href self now url st = (inl o, st') ->
  o = Return None \/ o = Raise (KeyError "irt") \/
  o = Raise (ValueError replay_message).
Proof. unfold_method. intros H. method_cases; eauto. Qed.

(** The second part of the handler stores the nonce before anything else. *)
Lemma callback_commit_cache self n d st :
  cache (snd (callback_commit self n d st))
  = <[Nonce.href n := {[ "value" := Nonce.value n ]}]> (cache st).
Proof. unfold_method. method_cases. Qed.

Lemma callback_commit_inr self n d st r st' :
  callback_commit self n d st = (inr r, st') ->
  exists sub is_new state acc,
    d !! "sub" = Some sub /\ d !! "isNewSub" = Some is_new /\
    d !! "state" = Some state /\ is_Some (d !! "iss") /\
    Application.get_account self sub = Some acc /\
    r = {| IdSiteCallbackResult.account :=
             {| Account.href := Account.href acc;
                Account.sp_http_status := if truthy is_new then 201 else 200 |};
           IdSiteCallbackResult.state := state |} /\
    st' = get_resource
            (_cache_put st (Nonce.href n) {[ "value" := Nonce.value n ]}) sub.
Proof.
  unfold_method. intros H.
  destruct (d !! "iss") as [iss|] eqn:Hiss; simplify_eq/=.
  destruct (d !! "sub") as [sub|] eqn:Hsub; simplify_eq/=.
  destruct (d !! "isNewSub") as [is_new|] eqn:Hnew; simplify_eq/=.
  destruct (d !! "state") as [state|] eqn:Hstate; simplify_eq/=.
  destruct (Application.get_account self sub) as [acc|] eqn:Hacc; simplify_eq/=.
  eexists sub, is_new, state, acc. repeat split; eauto.
Qed.

(** The handler is its two parts run one after the other. *)
Lemma handle_two_steps self now url st :
  handle_id_site_callback nonce_href self now url st
  = match callback_check nonce_href self now url st with
    | (inl o, st') => (o, st')
    | (inr (n, d), st') =>
        run (let* r := callback_commit self n d in pure (Some r))%method st'
    end.
Proof.
  unfold handle_id_site_callback, run, bind at 1.
  destruct (callback_check _ _ _ _ _) as [[o|[n d]] st']; [done|].
  simpl. unfold bind, pure. by destruct (callback_commit _ _ _ _) as [[?|?] ?].
Qed.

(** A successful call, taken apart. *)
Lemma handle_success_inv self now url st r st' :
  handle_id_site_callback nonce_href self now url st = (Return (Some r), st') ->
  exists tok j api_key irt sub,
    callback_token url = Some tok /\ load tok = Some j /\
    truthy (dict_get (payload j) "aud") = true /\
    Application.get_key self (dict_get (payload j) "aud") = Some api_key /\
    verify_signature j (ApiKey.secret api_key) now = None /\
    payload j !! "irt" = Some irt /\
    cached_truthy (_cache_get st (nonce_href irt)) = false /\
    payload j !! "sub" = Some sub /\
    st' = get_resource
            (_cache_put st (nonce_href irt) {[ "value" := irt ]}) sub.
Proof.
  rewrite handle_two_steps.
  destruct (callback_check _ _ _ _ _) as [[o|[n d]] st1] eqn:Hcheck.
  - intros ?; simplify_eq.
    apply callback_check_inl in Hcheck as [?|[?|?]]; simplify_eq.
  - apply callback_check_inr in Hcheck
      as (-> & tok & j & api_key & irt & ? & ? & -> & ? & ? & ? & ? & -> & ?).
    unfold run, bind, pure.
    destruct (callback_commit _ _ _ _) as [[o|r'] st2] eqn:Hcommit;
      intros ?; simplify_eq.
    + unfold_method. method_cases.
    + apply callback_commit_inr in Hcommit
        as (sub & is_new & state & acc & ? & ? & ? & ? & ? & ? & ->).
      eexists tok, j, api_key, irt, sub. by repeat split.
Qed.

End HandlerFacts.

(** ** Properties of the callback handler *)

Section Callback.
Context {codec : JwtCodec}.
Variable nonce_href : pyval -> string.

Lemma dict_truthy_singleton k v : dict_truthy {[ k := v ]} = true.
Proof.
  unfold dict_truthy. rewrite bool_decide_eq_false_2; [done|].
  apply map_non_empty_singleton.
Qed.

(** Once the second part of the handler has run, the nonce is found. *)
Lemma cached_after_commit st href data sub :
  _cache_get (get_resource (_cache_put st href data) sub) href = Some data.
Proof. unfold _cache_get. simpl. apply lookup_insert_eq. Qed.

(** The second part of the handler never ends with a plain [None]. *)
Lemma callback_commit_inl self n d st o st' :
  callback_commit self n d st = (inl o, st') -> exists e, o = Raise e.
Proof. unfold_method. intros H. method_cases; eauto. Qed.

Lemma callback_check_replayed self now url st tok j api_key irt :
  callback_token url = Some tok -> load tok = Some j ->
  truthy (dict_get (payload j) "aud") = true ->
  Application.get_key self (dict_get (payload j) "aud") = Some api_key ->
  verify_signature j (ApiKey.secret api_key) now = None ->
  payload j !! "irt" = Some irt ->
  cached_truthy (_cache_get st (nonce_href irt)) = true ->
  callback_check nonce_href self now url st
  = (inl (Raise (ValueError replay_message)), st).
Proof.
  unfold callback_token. intros Htok Hj Haud Hkey Hsig Hirt Hhit.
  unfold_method. unfold jwt_decode_unverified, jwt_decode.
  rewrite Htok, Hj, Haud. simpl. rewrite Hkey, Hsig, Hirt. simpl.
  by rewrite Hhit.
Qed.

Lemma callback_check_rejected self now url st tok j api_key e :
  callback_token url = Some tok -> load tok = Some j ->
  truthy (dict_get (payload j) "aud") = true ->
  Application.get_key self (dict_get (payload j) "aud") = Some api_key ->
  verify_signature j (ApiKey.secret api_key) now = Some e ->
  callback_check nonce_href self now url st = (inl (Return None), st).
Proof.
  unfold callback_token. intros Htok Hj Haud Hkey Hsig.
  unfold_method. unfold jwt_decode_unverified, jwt_decode.
  rewrite Htok, Hj, Haud. simpl. by rewrite Hkey, Hsig.
Qed.

(** Verification depends on the clock through the expiry test alone. *)
Lemma verify_signature_later j key now1 now2 :
  verify_signature j key now1 = None ->
  verify_signature j key now2
  = if expired (payload j) now2 then Some ExpiredSignature else None.
Proof. unfold verify_signature. intros H. method_cases. Qed.

(** After a successful call, the first part of the handler refuses the same
    URL: with [None] once the token has expired, with the replay error
    before that. *)
Lemma callback_check_after_success self now1 now2 url st r st' :
  handle_id_site_callback nonce_href self now1 url st = (Return (Some r), st') ->
  callback_check nonce_href self now2 url st'
  = (inl (if decide (failure_of nonce_href self now2 url st' = Some Expired)
          then Return None else Raise (ValueError replay_message)), st').
Proof.
  intros Hfirst.
  apply handle_success_inv in Hfirst
    as (tok & j & api_key & irt & sub & Htok & Hj & Haud & Hkey & Hsig
        & Hirt & _ & _ & ->).
  apply (verify_signature_later _ _ _ now2) in Hsig.
  unfold failure_of. rewrite Htok, Hj, Haud, Hkey, Hsig. simpl.
  destruct (expired (payload j) now2).
  - rewrite decide_True by done. eapply callback_check_rejected; eauto.
  - rewrite Hirt, cached_after_commit. simpl.
    rewrite dict_truthy_singleton, decide_False by done.
    eapply callback_check_replayed; eauto.
    rewrite cached_after_commit. apply dict_truthy_singleton.
Qed.


(** C9: whenever the handler returns [None], the nonce cache is what it was
    and no resource has been requested from the store: every [return None]
    comes before the first write and before the account lookup. *)
Theorem none_leaves_store_unchanged self now url st st' :
  handle_id_site_callback nonce_href self now url st = (Return None, st') ->
  cache st' = cache st /\ requested st' = requested st.
Proof.
  rewrite handle_two_steps.
  pose proof (callback_check_frame nonce_href self now url st) as Hframe.
  destruct (callback_check _ _ _ _ _) as [[o|[n d]] st1]; simpl in Hframe.
  - intros ?; by simplify_eq.
  - unfold run, bind, pure.
    destruct (callback_commit _ _ _ _) as [[o|r] st2] eqn:Hcommit;
      intros ?; simplify_eq.
    apply callback_commit_inl in Hcommit as [e ?]. done.
Qed.

(** C3: the nonce cache changes only when the token has passed signature
    verification under the key its [aud] resolves to; a token whose [aud] is
    absent or resolves to no key, or whose signature the key rejects, leaves
    the cache untouched. *)
Theorem nonce_only_after_verification self now url st :
  (cache (snd (handle_id_site_callback nonce_href self now url st)) <> cache st ->
   signature_verified self now url) /\
  (unauthenticated self now url ->
   cache (snd (handle_id_site_callback nonce_href self now url st)) = cache st).
Proof.
  rewrite handle_two_steps.
  pose proof (callback_check_frame nonce_href self now url st) as Hframe.
  destruct (callback_check _ _ _ _ _) as [[o|[n d]] st1] eqn:Hcheck;
    simpl in Hframe; subst st1.
  { split; [by intros []|done]. }
  apply callback_check_inr in Hcheck
    as (_ & tok & j & api_key & irt & Htok & Hj & -> & Haud & Hkey & Hsig & _).
  split.
  - intros _. exists tok, j, api_key. repeat split; try done.
    unfold jwt_decode. by rewrite Hj, Hsig.
  - intros (tok' & j' & Htok' & Hj' & Hbad). exfalso.
    assert (tok' = tok) as -> by congruence.
    assert (j' = j) as -> by congruence.
    destruct Hbad as [Hnone|[Hnokey|(api_key' & Hkey' & Hrej)]].
    + unfold dict_get in Haud. by rewrite Hnone in Haud.
    + congruence.
    + congruence.
Qed.


End Callback.

(** ** Two callers *)

Section Concurrency.
Context {codec : JwtCodec}.
Variable nonce_href : pyval -> string.

Lemma interleave_app self s1 s2 t1 t2 st :
  interleave nonce_href self (s1 ++ s2) t1 t2 st
  = let '(t1', t2', st') := interleave nonce_href self s1 t1 t2 st in
    interleave nonce_href self s2 t1' t2' st'.
Proof.
  revert t1 t2 st. induction s1 as [|[] s1 IH]; intros t1 t2 st; simpl; [done|..].
  - destruct (thread_step _ _ t1 st). apply IH.
  - destruct (thread_step _ _ t2 st). apply IH.
Qed.

Lemma interleave_first self n t1 t2 st :
  interleave nonce_href self (replicate n First) t1 t2 st
  = let '(t1', st') := steps nonce_href self n t1 st in (t1', t2, st').
Proof.
  revert t1 st. induction n as [|n IH]; intros t1 st; simpl; [done|].
  destruct (thread_step _ _ t1 st). apply IH.
Qed.

Lemma interleave_second self n t1 t2 st :
  interleave nonce_href self (replicate n Second) t1 t2 st
  = let '(t2', st') := steps nonce_href self n t2 st in (t1, t2', st').
Proof.
  revert t2 st. induction n as [|n IH]; intros t2 st; simpl; [done|].
  destruct (thread_step _ _ t2 st). apply IH.
Qed.

Lemma steps_finished self n o st :
  steps nonce_href self n (Finished o) st = (Finished o, st).
Proof. induction n; simpl; auto. Qed.

(** Run on its own, a caller goes through the handler. *)
Lemma steps_called self n now url st :
  steps nonce_href self (S (S n)) (Called now url) st
  = let '(o, st') := handle_id_site_callback nonce_href self now url st in
    (Finished o, st').
Proof.
  rewrite handle_two_steps. simpl.
  destruct (callback_check _ _ _ _ _) as [[o|[nonce d]] st1].
  - destruct n; simpl; [done|]. apply steps_finished.
  - simpl. destruct (run _ st1) as [o st2].
    destruct n; simpl; [done|]. apply steps_finished.
Qed.

(** A caller that succeeded on its own went through a successful call of
    the handler. *)
Lemma steps_succeeded self n now url st t st' :
  steps nonce_href self n (Called now url) st = (t, st') ->
  succeeded t = true ->
  exists r, handle_id_site_callback nonce_href self now url st
            = (Return (Some r), st').
Proof.
  destruct n as [|[|n]].
  - simpl. intros ? ?; by simplify_eq.
  - simpl. destruct (callback_check _ _ _ _ _) as [[o|[nonce d]] st1] eqn:Hcheck;
      intros ? Hs; simplify_eq/=.
    apply callback_check_inl in Hcheck as [?|[?|?]]; by simplify_eq.
  - rewrite steps_called.
    destruct (handle_id_site_callback _ _ _ _ _) as [o st1].
    intros ? Hs; simplify_eq/=. destruct o as [[r|]|]; try done. by exists r.
Qed.

(** A caller that starts after another one has succeeded on the same URL
    does not succeed. *)
Lemma steps_after_success self n now1 now2 url st r st' :
  handle_id_site_callback nonce_href self now1 url st = (Return (Some r), st') ->
  succeeded (fst (steps nonce_href self n (Called now2 url) st')) = false.
Proof.
  intros Hfirst. destruct n as [|n]; [done|]. simpl.
  rewrite (callback_check_after_success _ _ _ _ _ _ _ _ Hfirst).
  rewrite steps_finished. simpl. by case_decide.
Qed.

(** One caller after the other: whoever goes second does not succeed if the
    first did. *)
Lemma serial_not_both self n m now1 now2 url st :
  let '(t1, st1) := steps nonce_href self n (Called now1 url) st in
  let '(t2, _) := steps nonce_href self m (Called now2 url) st1 in
  succeeded t1 && succeeded t2 = false.
Proof.
  destruct (steps _ _ n _ st) as [t1 st1] eqn:H1.
  destruct (steps _ _ m _ st1) as [t2 st2] eqn:H2.
  destruct (succeeded t1) eqn:Hs1; [|done]. simpl.
  destruct (steps_succeeded _ _ _ _ _ _ _ H1 Hs1) as [r Hr].
  pose proof (steps_after_success self m _ now2 _ _ _ _ Hr) as Hs2.
  by rewrite H2 in Hs2.
Qed.

(** C2, as the code has it: the replay check is a read of the nonce cache
    followed by a separate write.  When two callers handle the same URL one
    after the other, in either order, at most one of them succeeds. *)
Theorem serial_callers_not_both_succeed self first n m now1 now2 url st :
  let '(t1, t2, _) :=
    interleave nonce_href self (replicate n first ++ replicate m (other first))
      (Called now1 url) (Called now2 url) st in
  succeeded t1 && succeeded t2 = false.
Proof.
  rewrite interleave_app. destruct first; simpl other.
  - rewrite interleave_first.
    pose proof (serial_not_both self n m now1 now2 url st) as H.
    destruct (steps _ _ n _ st) as [t1 st1].
    rewrite interleave_second.
    by destruct (steps _ _ m _ st1) as [t2 st2].
  - rewrite interleave_second.
    pose proof (serial_not_both self n m now2 now1 url st) as H.
    destruct (steps _ _ n _ st) as [t2 st1].
    rewrite interleave_first.
    destruct (steps _ _ m _ st1) as [t1 st2]. by rewrite andb_comm.
Qed.

End Concurrency.

(** ** The redirect URL *)

Section Redirect.
Context {codec : JwtCodec}.
Variable nonce_href : pyval -> string.

Lemma build_spec self utcnow uuid4_hex api_key callback_uri path state :
  build_id_site_redirect_url self utcnow uuid4_hex api_key callback_uri path state
  = Return (redirect_url
      (jwt_encode
         (redirect_claims self utcnow uuid4_hex api_key callback_uri path state)
         (ApiKey.secret api_key) HS256)).
Proof.
  unfold build_id_site_redirect_url, urlencode1, redirect_url, redirect_claims.
  rewrite (quote_plus_safe (jwt_encode _ _ _)) by apply compact_url_safe.
  reflexivity.
Qed.

Lemma callback_token_redirect_url tok :
  url_safe tok = true -> callback_token (redirect_url tok) = Some tok.
Proof. intros H. by apply callback_token_query. Qed.

Lemma redirect_claims_lookup self utcnow uuid4_hex api_key callback_uri path state :
  let body := redirect_claims self utcnow uuid4_hex api_key callback_uri path state in
  body !! "aud" = None /\ body !! "exp" = None /\
  body !! "cb_uri" = Some (PStr callback_uri) /\
  body !! "path" = (if truthy path then Some path else None) /\
  body !! "state" = (if truthy state then Some state else None).
Proof.
  unfold redirect_claims.
  destruct (truthy path), (truthy state); by simplify_map_eq.
Qed.

(** The token of a redirect URL, loaded again. *)
Lemma load_redirect_token body key :
  load (jwt_encode body key HS256)
  = Some {| header := {[ "typ" := PStr "JWT"; "alg" := PStr "HS256" ]};
            payload := body;
            crypto := Hmac HS256 key
                        {[ "typ" := PStr "JWT"; "alg" := PStr "HS256" ]} body |}.
Proof. unfold jwt_encode. apply load_compact. Qed.

(** The handler turns every redirect URL away: the token that
    [build_id_site_redirect_url] signs has no [aud] claim. *)
Lemma handle_redirect_url self other now utcnow uuid4_hex api_key callback_uri
    path state st :
  handle_id_site_callback nonce_href other now
    (redirect_url
       (jwt_encode
          (redirect_claims self utcnow uuid4_hex api_key callback_uri path state)
          (ApiKey.secret api_key) HS256)) st
  = (Return None, st).
Proof.
  pose proof (callback_token_redirect_url _
    (compact_url_safe _ : url_safe (jwt_encode
       (redirect_claims self utcnow uuid4_hex api_key callback_uri path state)
       (ApiKey.secret api_key) HS256) = true)) as Htok.
  unfold callback_token in Htok. unfold_method. rewrite Htok. simpl.
  rewrite jwt_decode_unverified_encode. simpl. unfold dict_get.
  by destruct (redirect_claims_lookup self utcnow uuid4_hex api_key
                 callback_uri path state) as (-> & _).
Qed.

Lemma jwt_decode_redirect_token self now utcnow uuid4_hex api_key callback_uri
    path state :
  let body := redirect_claims self utcnow uuid4_hex api_key callback_uri path state in
  jwt_decode (jwt_encode body (ApiKey.secret api_key) HS256)
    (ApiKey.secret api_key) now = inr body.
Proof.
  intros body. apply jwt_decode_encode. unfold expired, body.
  by destruct (redirect_claims_lookup self utcnow uuid4_hex api_key
                 callback_uri path state) as (_ & -> & _).
Qed.

(** What passes [verify_signature] carries the MAC of its own header and
    payload, computed with the algorithm that its header names. *)
Lemma verify_signature_None_inv j key now :
  verify_signature j key now = None ->
  exists a, header j !! "alg" = Some (PStr (alg_name a)) /\
            crypto j = Hmac a key (header j) (payload j).
Proof.
  unfold verify_signature. intros H.
  destruct (header j !! "alg") as [[| | |name]|]; try done.
  destruct (verify_methods name) as [a|] eqn:Ha; [|done].
  apply verify_methods_inv in Ha as ->.
  case_bool_decide; [|done]. by exists a.
Qed.

(** C4, as the code has it: [build_id_site_redirect_url] always signs with
    HS256, but [handle_id_site_callback] passes no algorithm to
    [jwt.decode]: a callback it accepts carries the MAC of its header and
    payload under the resolved key, computed with whichever HMAC algorithm
    the token's own header names. *)
Theorem algorithm_comes_from_header :
  (forall self utcnow uuid4_hex api_key callback_uri path state,
     exists tok j,
       build_id_site_redirect_url self utcnow uuid4_hex api_key callback_uri
         path state = Return (redirect_url tok) /\
       load tok = Some j /\
       header j !! "alg" = Some (PStr "HS256") /\
       crypto j = Hmac HS256 (ApiKey.secret api_key) (header j) (payload j)) /\
  (forall self now url st r st',
     handle_id_site_callback nonce_href self now url st = (Return (Some r), st') ->
     exists tok j api_key a,
       callback_token url = Some tok /\ load tok = Some j /\
       Application.get_key self (dict_get (payload j) "aud") = Some api_key /\
       header j !! "alg" = Some (PStr (alg_name a)) /\
       crypto j = Hmac a (ApiKey.secret api_key) (header j) (payload j)).
Proof.
  split.
  - intros. eexists _, _. rewrite build_spec, load_redirect_token.
    repeat split.
  - intros self now url st r st' H.
    apply handle_success_inv in H
      as (tok & j & api_key & irt & sub & Htok & Hj & _ & Hkey & Hsig & _).
    apply verify_signature_None_inv in Hsig as (a & Halg & Hmac).
    by exists tok, j, api_key, a.
Qed.

(** C5, as the code has it: the token taken out of the URL that
    [build_id_site_redirect_url] returns decodes, under the signing key, to
    claims whose [cb_uri] is the callback URI and whose [path] and [state]
    are what was supplied, absent when omitted or falsy.  The callback
    handler itself returns [None] on that URL and leaves the store alone:
    the token has no [aud] claim. *)
Theorem redirect_token_round_trip self other now utcnow uuid4_hex api_key
    callback_uri path state st :
  exists tok claims,
    build_id_site_redirect_url self utcnow uuid4_hex api_key callback_uri
      path state = Return (redirect_url tok) /\
    callback_token (redirect_url tok) = Some tok /\
    jwt_decode tok (ApiKey.secret api_key) now = inr claims /\
    claims !! "cb_uri" = Some (PStr callback_uri) /\
    claims !! "path" = (if truthy path then Some path else None) /\
    claims !! "state" = (if truthy state then Some state else None) /\
    handle_id_site_callback nonce_href other now (redirect_url tok) st
    = (Return None, st).
Proof.
  eexists _, _. rewrite build_spec. split; [done|].
  rewrite callback_token_redirect_url by apply compact_url_safe.
  split; [done|].
  rewrite jwt_decode_redirect_token. split; [done|].
  rewrite handle_redirect_url.
  destruct (redirect_claims_lookup self utcnow uuid4_hex api_key
              callback_uri path state) as (_ & _ & ? & ? & ?).
  done.
Qed.

(** C7, as the code has it: a token built without [path] and [state]
    decodes, under the signing key, to claims in which both are absent.
    The callback handler does not accept it: it returns [None], as it does
    for every token that [build_id_site_redirect_url] signs. *)
Theorem token_without_optional_claims self other now utcnow uuid4_hex api_key
    callback_uri st :
  exists tok claims,
    build_id_site_redirect_url self utcnow uuid4_hex api_key callback_uri
      PNone PNone = Return (redirect_url tok) /\
    jwt_decode tok (ApiKey.secret api_key) now = inr claims /\
    claims !! "path" = None /\ claims !! "state" = None /\
    handle_id_site_callback nonce_href other now (redirect_url tok) st
    = (Return None, st).
Proof.
  eexists _, _. rewrite build_spec. split; [done|].
  rewrite jwt_decode_redirect_token. split; [done|].
  rewrite handle_redirect_url.
  destruct (redirect_claims_lookup self utcnow uuid4_hex api_key
              callback_uri PNone PNone) as (_ & _ & _ & ? & ?).
  done.
Qed.


(** C10: a [path] or [state] that is supplied but falsy is left out of the
    signed token exactly as if it had not been supplied, so the token never
    has an empty string as its [path] or [state]. *)
Theorem falsy_path_and_state_are_omitted self utcnow uuid4_hex api_key
    callback_uri path state :
  (truthy path = false ->
   build_id_site_redirect_url self utcnow uuid4_hex api_key callback_uri path state
   = build_id_site_redirect_url self utcnow uuid4_hex api_key callback_uri PNone state) /\
  (truthy state = false ->
   build_id_site_redirect_url self utcnow uuid4_hex api_key callback_uri path state
   = build_id_site_redirect_url self utcnow uuid4_hex api_key callback_uri path PNone) /\
  (exists tok j,
     build_id_site_redirect_url self utcnow uuid4_hex api_key callback_uri
       path state = Return (redirect_url tok) /\
     load tok = Some j /\
     payload j !! "path" <> Some (PStr "") /\
     payload j !! "state" <> Some (PStr "")).
Proof.
  split; [|split].
  - intros H. unfold build_id_site_redirect_url. by rewrite H.
  - intros H. unfold build_id_site_redirect_url. by rewrite H.
  - eexists _, _. rewrite build_spec, load_redirect_token.
    split; [done|]. split; [done|]. cbn [payload].
    destruct (redirect_claims_lookup self utcnow uuid4_hex api_key
                callback_uri path state) as (_ & _ & _ & -> & ->).
    split.
    + destruct (truthy path) eqn:H; [|done]. intros ?; by simplify_eq.
    + destruct (truthy state) eqn:H; [|done]. intros ?; by simplify_eq.
Qed.

End Redirect.

(** ** The examples, run

    Everything below is evaluated on the example application, the example
    claims and the wire format of the examples. *)

Section Examples.
Import Example.

Abbreviation handle := (handle_id_site_callback (codec := bits_codec) nonce_href app).
Abbreviation build := (build_id_site_redirect_url (codec := bits_codec) app 0 jti api_key).


(** A forged token is answered with [None] and leaves no trace. *)
Lemma none_leaves_store_unchanged_witness :
  handle 100 forged_url empty_store = (Return None, empty_store) /\
  cache empty_store = cache empty_store /\
  requested empty_store = requested empty_store.
Proof.
  assert (H : handle 100 forged_url empty_store = (Return None, empty_store))
    by (vm_compute; reflexivity).
  exact (conj H (none_leaves_store_unchanged _ _ _ _ _ _ H)).
Defined.

(** The accepted callback changed the cache and was verified; the forged
    one is unauthenticated and changed nothing. *)
Lemma nonce_only_after_verification_witness :
  (cache (snd (handle 100 callback_url empty_store)) <> cache empty_store /\
   signature_verified app 100 callback_url) /\
  (unauthenticated app 100 forged_url /\
   cache (snd (handle 100 forged_url empty_store)) = cache empty_store).
Proof.
  assert (E : handle 100 callback_url empty_store
              = (Return (Some accepted), store_after))
    by (vm_compute; reflexivity).
  assert (H1 : cache (snd (handle 100 callback_url empty_store))
               <> cache empty_store).
  { rewrite E. apply map_non_empty_singleton. }
  assert (H2 : unauthenticated app 100 forged_url).
  { exists (jwt_encode fake_jwt_data "GUESS" HS256),
      {| header := {[ "typ" := PStr "JWT"; "alg" := PStr "HS256" ]};
         payload := fake_jwt_data;
         crypto := Hmac HS256 "GUESS"
                     {[ "typ" := PStr "JWT"; "alg" := PStr "HS256" ]}
                     fake_jwt_data |}.
    split; [vm_compute; reflexivity|].
    split; [vm_compute; reflexivity|].
    right. right. exists api_key. split; vm_compute; reflexivity. }
  exact (conj
    (conj H1 (proj1 (nonce_only_after_verification _ _ _ _ _) H1))
    (conj H2 (proj2 (nonce_only_after_verification nonce_href _ _ _ empty_store) H2))).
Defined.



(** C2 fails as stated: when both callers have checked the cache before
    either has written to it, both succeed on the same token. *)
Lemma interleaved_callers_both_succeed :
  interleave nonce_href app [First; Second; First; Second]
    (Called 100 callback_url) (Called 100 callback_url) empty_store
  = (Finished (Return (Some accepted)), Finished (Return (Some accepted)),
     store_after_both).
Proof. vm_compute; reflexivity. Qed.

(** C4 fails as stated: a token whose header names HS512 and whose
    signature is the HS512 MAC is accepted. *)
Lemma hs512_token_is_accepted :
  load token_hs512
  = Some {| header := {[ "typ" := PStr "JWT"; "alg" := PStr "HS512" ]};
            payload := fake_jwt_data;
            crypto := Hmac HS512 "SECRET"
                        {[ "typ" := PStr "JWT"; "alg" := PStr "HS512" ]}
                        fake_jwt_data |} /\
  handle 100 hs512_url empty_store = (Return (Some accepted), store_after).
Proof. split; vm_compute; reflexivity. Qed.

Lemma algorithm_comes_from_header_witness :
  handle 100 hs512_url empty_store = (Return (Some accepted), store_after) /\
  exists tok j api_key a,
    callback_token hs512_url = Some tok /\ load tok = Some j /\
    Application.get_key app (dict_get (payload j) "aud") = Some api_key /\
    header j !! "alg" = Some (PStr (alg_name a)) /\
    crypto j = Hmac a (ApiKey.secret api_key) (header j) (payload j).
Proof.
  assert (H : handle 100 hs512_url empty_store
              = (Return (Some accepted), store_after))
    by (vm_compute; reflexivity).
  exact (conj H (proj2 (algorithm_comes_from_header nonce_href) _ _ _ _ _ _ H)).
Defined.

(** C5 fails as stated: the URL built for a callback URI, a path and a
    state does not verify; the handler returns [None] on it. *)
Lemma built_url_is_not_verified :
  exists url,
    build "http://testserver/" (PStr "/#/register") (PStr "test") = Return url /\
    handle 100 url empty_store = (Return None, empty_store).
Proof. eexists. split; [reflexivity|]. vm_compute; reflexivity. Qed.

(** C7 fails as stated: the URL built without path and state does not
    verify either. *)
Lemma built_url_without_options_is_not_verified :
  exists url,
    build "http://localhost/" PNone PNone = Return url /\
    handle 100 url empty_store = (Return None, empty_store).
Proof. eexists. split; [reflexivity|]. vm_compute; reflexivity. Qed.


(** An empty [path] and an empty [state] are dropped. *)
Lemma falsy_path_and_state_are_omitted_witness :
  (truthy (PStr "") = false /\
   build "http://localhost/" (PStr "") (PStr "test")
   = build "http://localhost/" PNone (PStr "test")) /\
  (truthy (PStr "") = false /\
   build "http://localhost/" (PStr "/#/register") (PStr "")
   = build "http://localhost/" (PStr "/#/register") PNone).
Proof.
  exact (conj
    (conj eq_refl
       (proj1 (falsy_path_and_state_are_omitted _ _ _ _ _ (PStr "") _) eq_refl))
    (conj eq_refl
       (proj1 (proj2 (falsy_path_and_state_are_omitted _ _ _ _ _ _ (PStr "")))
          eq_refl))).
Defined.

End Examples.

(** * Further properties *)

(** ** What the handler reads from the URL *)

Lemma partition_occurs c sep s :
  occurs c (fst (partition sep s)) = true \/
  (exists r, snd (partition sep s) = Some r /\ occurs c r = true) ->
  occurs c s = true.
Proof.
  induction s as [|c' s IH]; simpl.
  - intros [?|(r & ? & ?)]; done.
  - rewrite orb_true_iff. case_bool_decide; simpl.
    + intros [?|(r & ? & ?)]; [done|]. simplify_eq. by right.
    + destruct (partition sep s) as [before after]; simpl in *.
      rewrite orb_true_iff. intros [[?|?]|?]; [by left|right; apply IH..].
      * by left.
      * by right.
Qed.

Lemma urlparse_query_occurs c url :
  occurs c (urlparse_query url) = true -> occurs c url = true.
Proof.
  unfold urlparse_query. intros H.
  apply (partition_occurs c "#"). left.
  destruct (partition "#" url) as [before ?]; simpl.
  apply (partition_occurs c "?"). right.
  destruct (partition "?" before) as [? [query|]]; simpl in *; [|done].
  by exists query.
Qed.

Lemma app_assoc_string s t u : (s +:+ t) +:+ u = s +:+ t +:+ u.
Proof. induction s as [|c s IH]; [done|]. by rewrite !app_cons, IH. Qed.

(** The query of [base?q]. *)
Lemma urlparse_query_app base q :
  occurs "#" base = false -> occurs "?" base = false -> occurs "#" q = false ->
  urlparse_query (base +:+ "?" +:+ q) = q.
Proof.
  intros Hb1 Hb2 Hq. unfold urlparse_query.
  rewrite partition_absent by (by rewrite !occurs_app, Hb1, Hq).
  change (base +:+ "?" +:+ q) with (base +:+ String "?" q).
  by rewrite partition_first.
Qed.

Section UrlFacts.
Context {codec : JwtCodec}.
Variable nonce_href : pyval -> string.

(** The handler looks at nothing of the URL but the token it takes out. *)
Lemma handle_token_only self now url1 url2 st :
  callback_token url1 = callback_token url2 ->
  handle_id_site_callback nonce_href self now url1 st
  = handle_id_site_callback nonce_href self now url2 st.
Proof.
  unfold callback_token. intros H. unfold_method. by rewrite H.
Qed.



(** X3: a URL without any [=] carries no token: the handler returns [None] and
    leaves the store alone. *)
Theorem url_without_equals_sign self now url st :
  occurs "=" url = false ->
  handle_id_site_callback nonce_href self now url st = (Return None, st).
Proof.
  intros H.
  assert (occurs "=" (urlparse_query url) = false) as Hq.
  { destruct (occurs "=" (urlparse_query url)) eqn:E; [|done].
    apply urlparse_query_occurs in E. congruence. }
  unfold_method. by rewrite split_absent.
Qed.

(** X4: whatever follows a [#] is cut off before the token is looked for: a
    fragment added to a callback URL does not change how it is handled. *)
Theorem fragment_is_ignored self now url fragment st :
  occurs "#" url = false ->
  handle_id_site_callback nonce_href self now (url +:+ "#" +:+ fragment) st
  = handle_id_site_callback nonce_href self now url st.
Proof.
  intros H. apply handle_token_only. unfold callback_token, urlparse_query.
  change (url +:+ "#" +:+ fragment) with (url +:+ String "#" fragment).
  rewrite partition_first by done. by rewrite (partition_absent "#" url).
Qed.

End UrlFacts.

(** ** The handler past the replay check *)

Section PastTheCheck.
Context {codec : JwtCodec}.
Variable nonce_href : pyval -> string.

Lemma callback_check_passes self now url st tok j api_key irt :
  callback_token url = Some tok -> load tok = Some j ->
  truthy (dict_get (payload j) "aud") = true ->
  Application.get_key self (dict_get (payload j) "aud") = Some api_key ->
  verify_signature j (ApiKey.secret api_key) now = None ->
  payload j !! "irt" = Some irt ->
  cached_truthy (_cache_get st (nonce_href irt)) = false ->
  callback_check nonce_href self now url st
  = (inr (Nonce nonce_href irt, payload j), st).
Proof.
  unfold callback_token. intros Htok Hj Haud Hkey Hsig Hirt Hmiss.
  unfold_method. unfold jwt_decode_unverified, jwt_decode.
  rewrite Htok, Hj, Haud. simpl. rewrite Hkey, Hsig, Hirt. simpl.
  by rewrite Hmiss.
Qed.

(** The second part of the handler, case by case: the nonce is stored
    first; a claim that is not there ends it with [KeyError]; otherwise the
    account is requested, and the result is built if it is retrieved. *)
Lemma callback_commit_spec self n d st :
  callback_commit self n d st
  = let st1 := _cache_put st (Nonce.href n) {[ "value" := Nonce.value n ]} in
    match first_missing d ["iss"; "sub"; "isNewSub"; "state"] with
    | Some k => (inl (Raise (KeyError k)), st1)
    | None =>
        let sub := dict_get d "sub" in
        match Application.get_account self sub with
        | None => (inl (Raise (StormpathError sub)), get_resource st1 sub)
        | Some acc =>
            (inr {| IdSiteCallbackResult.account :=
                      {| Account.href := Account.href acc;
                         Account.sp_http_status :=
                           if truthy (dict_get d "isNewSub") then 201 else 200 |};
                    IdSiteCallbackResult.state := dict_get d "state" |},
             get_resource st1 sub)
        end
    end.
Proof.
  unfold_method. unfold dict_get. simpl.
  destruct (d !! "iss"); simpl; [|done].
  destruct (d !! "sub"); simpl; [|done].
  destruct (d !! "isNewSub"); simpl; [|done].
  destruct (d !! "state"); simpl; [|done].
  by destruct (Application.get_account self _).
Qed.

Local Arguments first_missing : simpl never.

(** What [failure_of] has established when it names no failure before the
    replay check. *)
Lemma failure_of_past_check self now url st m :
  failure_of nonce_href self now url st = MissingClaim <$> m ->
  m <> Some "irt" ->
  exists tok j api_key irt,
    callback_token url = Some tok /\ load tok = Some j /\
    truthy (dict_get (payload j) "aud") = true /\
    Application.get_key self (dict_get (payload j) "aud") = Some api_key /\
    verify_signature j (ApiKey.secret api_key) now = None /\
    payload j !! "irt" = Some irt /\
    cached_truthy (_cache_get st (nonce_href irt)) = false /\
    first_missing (payload j) ["iss"; "sub"; "isNewSub"; "state"] = m.
Proof.
  unfold failure_of. intros Hf Hm.
  destruct (callback_token url) as [tok|] eqn:Htok; [|by destruct m].
  destruct (load tok) as [j|] eqn:Hj; [|by destruct m].
  destruct (truthy (dict_get (payload j) "aud")) eqn:Haud; simpl in Hf;
    [|by destruct m].
  destruct (Application.get_key self _) as [api_key|] eqn:Hkey;
    [|by destruct m].
  destruct (verify_signature j _ now) as [[]|] eqn:Hsig; [by destruct m..|].
  destruct (payload j !! "irt") as [irt|] eqn:Hirt.
  2:{ destruct m; simplify_eq/=. }
  destruct (cached_truthy _) eqn:Hmiss; [by destruct m|].
  exists tok, j, api_key, irt. repeat split; try done.
  destruct (first_missing _ _), m; simpl in Hf; by simplify_eq.
Qed.

(** The handler on a callback that [failure_of] lets past the replay
    check. *)
Lemma handle_past_check self now url st m :
  failure_of nonce_href self now url st = MissingClaim <$> m ->
  m <> Some "irt" ->
  exists tok j irt,
    callback_token url = Some tok /\ load tok = Some j /\
    payload j !! "irt" = Some irt /\
    first_missing (payload j) ["iss"; "sub"; "isNewSub"; "state"] = m /\
    handle_id_site_callback nonce_href self now url st
    = run (let* r := callback_commit self (Nonce nonce_href irt) (payload j) in
           pure (Some r))%method st.
Proof.
  intros Hf Hm.
  destruct (failure_of_past_check _ _ _ _ _ Hf Hm)
    as (tok & j & api_key & irt & ? & ? & ? & ? & ? & ? & ? & ?).
  exists tok, j, irt. repeat split; try done.
  rewrite handle_two_steps.
  by erewrite callback_check_passes.
Qed.




End PastTheCheck.

(** ** What the handler does to the store *)

Section StoreEffects.
Context {codec : JwtCodec}.
Variable nonce_href : pyval -> string.

Local Arguments first_missing : simpl never.

(** Either the first part of the handler ends the call and the store is
    untouched, or the token is verified and unused and the second part
    runs. *)
Lemma handle_cases self now url st :
  (exists o, handle_id_site_callback nonce_href self now url st = (o, st) /\
             forall r, o <> Return (Some r)) \/
  (exists tok j api_key irt,
     callback_token url = Some tok /\ load tok = Some j /\
     truthy (dict_get (payload j) "aud") = true /\
     Application.get_key self (dict_get (payload j) "aud") = Some api_key /\
     verify_signature j (ApiKey.secret api_key) now = None /\
     payload j !! "irt" = Some irt /\
     cached_truthy (_cache_get st (nonce_href irt)) = false /\
     handle_id_site_callback nonce_href self now url st
     = run (let* r := callback_commit self (Nonce nonce_href irt) (payload j) in
            pure (Some r))%method st).
Proof.
  rewrite handle_two_steps.
  pose proof (callback_check_frame nonce_href self now url st) as Hframe.
  destruct (callback_check _ _ _ _ _) as [[o|[n d]] st1] eqn:Hcheck;
    simpl in Hframe; subst st1.
  - left. exists o. split; [done|].
    apply callback_check_inl in Hcheck as [?|[?|?]]; by simplify_eq.
  - right.
    apply callback_check_inr in Hcheck
      as (_ & tok & j & api_key & irt & ? & ? & -> & ? & ? & ? & ? & -> & ?).
    by exists tok, j, api_key, irt.
Qed.

(** The store after the second part of the handler. *)
Lemma commit_store self n d st :
  let st1 := _cache_put st (Nonce.href n) {[ "value" := Nonce.value n ]} in
  let st' := snd (run (let* r := callback_commit self n d in
                       pure (Some r))%method st) in
  st' = st1 \/ st' = get_resource st1 (dict_get d "sub").
Proof.
  simpl. unfold run, bind, pure. rewrite callback_commit_spec. simpl.
  destruct (first_missing _ _); [by left|].
  destruct (Application.get_account _ _); by right.
Qed.

Lemma nonce_key_of_token url tok j irt :
  callback_token url = Some tok -> load tok = Some j ->
  payload j !! "irt" = Some irt ->
  nonce_key_of nonce_href url = Some (nonce_href irt).
Proof. unfold nonce_key_of. by intros -> -> ->. Qed.

(** Once the nonce of a verified token is in the cache, the first part of
    the handler refuses the token: with [None] when it has expired by then,
    with the replay error before that. *)
Lemma callback_check_once_stored self now1 now2 url st tok j api_key irt :
  callback_token url = Some tok -> load tok = Some j ->
  truthy (dict_get (payload j) "aud") = true ->
  Application.get_key self (dict_get (payload j) "aud") = Some api_key ->
  verify_signature j (ApiKey.secret api_key) now1 = None ->
  payload j !! "irt" = Some irt ->
  cached_truthy (_cache_get st (nonce_href irt)) = true ->
  callback_check nonce_href self now2 url st
  = (inl (if decide (failure_of nonce_href self now2 url st = Some Expired)
          then Return None else Raise (ValueError replay_message)), st).
Proof.
  intros Htok Hj Haud Hkey Hsig Hirt Hhit.
  apply (verify_signature_later _ _ _ now2) in Hsig.
  unfold failure_of. rewrite Htok, Hj, Haud, Hkey, Hsig. simpl.
  destruct (expired (payload j) now2).
  - rewrite decide_True by done. eapply callback_check_rejected; eauto.
  - rewrite Hirt, Hhit, decide_False by done.
    eapply callback_check_replayed; eauto.
Qed.

(** X8: the handler changes the store in one way only: it puts the nonce of the
    token, which was not in the cache, under its key, and after that it may
    request one resource.  It removes nothing and changes no other entry. *)
Theorem handler_footprint self now url st :
  let st' := snd (handle_id_site_callback nonce_href self now url st) in
  st' = st \/
  exists irt,
    nonce_key_of nonce_href url = Some (nonce_href irt) /\
    cached_truthy (_cache_get st (nonce_href irt)) = false /\
    cache st' = <[nonce_href irt := {[ "value" := irt ]}]> (cache st) /\
    (requested st' = requested st \/
     exists sub, requested st' = requested st ++ [sub]).
Proof.
  simpl.
  destruct (handle_cases self now url st)
    as [(o & -> & _)|(tok & j & api_key & irt & Htok & Hj & _ & _ & _ & Hirt
                      & Hmiss & ->)]; [by left|].
  right. exists irt. split; [by eapply nonce_key_of_token|]. split; [done|].
  destruct (commit_store self (Nonce nonce_href irt) (payload j) st)
    as [->| ->]; simpl; eauto.
Qed.

(** X9: a nonce that is in the cache stays there as it is, whatever callback
    the handler is given. *)
Theorem stored_nonces_are_kept self now url st href data :
  cache st !! href = Some data -> dict_truthy data = true ->
  cache (snd (handle_id_site_callback nonce_href self now url st)) !! href
  = Some data.
Proof.
  intros Hin Htrue.
  destruct (handle_cases self now url st)
    as [(o & -> & _)|(tok & j & api_key & irt & _ & _ & _ & _ & _ & _
                      & Hmiss & ->)]; [done|].
  assert (href <> nonce_href irt) as Hne.
  { intros ->. unfold _cache_get in Hmiss. rewrite Hin in Hmiss.
    simpl in Hmiss. congruence. }
  destruct (commit_store self (Nonce nonce_href irt) (payload j) st)
    as [->| ->]; simpl; by rewrite lookup_insert_ne.
Qed.

(** X10: as soon as a call has stored the nonce, whether it then returned a
    result or ended in an error, every later call on the same URL, made
    before the token has expired, is refused with the replay error. *)
Theorem nonce_is_spent_once_stored self now1 now2 url st :
  let st' := snd (handle_id_site_callback nonce_href self now1 url st) in
  cache st' <> cache st ->
  failure_of nonce_href self now2 url st' <> Some Expired ->
  handle_id_site_callback nonce_href self now2 url st'
  = (Raise (ValueError replay_message), st').
Proof.
  simpl.
  destruct (handle_cases self now1 url st)
    as [(o & -> & _)|(tok & j & api_key & irt & Htok & Hj & Haud & Hkey
                      & Hsig & Hirt & _ & ->)]; [done|].
  intros _ Hlive. rewrite handle_two_steps.
  erewrite callback_check_once_stored; eauto.
  - by rewrite decide_False.
  - destruct (commit_store self (Nonce nonce_href irt) (payload j) st)
      as [->| ->]; unfold _cache_get; simpl;
      rewrite lookup_insert_eq; apply dict_truthy_singleton.
Qed.

End StoreEffects.

(** ** Accepted callbacks *)

Section Accepted.
Context {codec : JwtCodec}.
Variable nonce_href : pyval -> string.

Local Arguments first_missing : simpl never.

Lemma first_missing_present d names :
  (forall k, k ∈ names -> is_Some (d !! k)) -> first_missing d names = None.
Proof.
  induction names as [|k names IH]; unfold first_missing; fold first_missing;
    [done|].
  intros H. rewrite bool_decide_eq_false_2.
  - apply IH. intros k' ?. apply H. by right.
  - destruct (H k) as [v Hv]; [by left|]. congruence.
Qed.

(** X11: what the caller gets from a successful call: the account retrieved for
    the [sub] claim, marked as new (status 201) exactly when [isNewSub] is
    true and as existing (status 200) otherwise, and the [state] claim as it
    stands in the token.  The store has gained the nonce and one request,
    for that account. *)
Theorem accepted_callback_result self now url st r st' :
  handle_id_site_callback nonce_href self now url st = (Return (Some r), st') ->
  exists tok j irt sub is_new state acc,
    callback_token url = Some tok /\ load tok = Some j /\
    payload j !! "irt" = Some irt /\ payload j !! "sub" = Some sub /\
    payload j !! "isNewSub" = Some is_new /\
    payload j !! "state" = Some state /\
    Application.get_account self sub = Some acc /\
    r = {| IdSiteCallbackResult.account :=
             {| Account.href := Account.href acc;
                Account.sp_http_status := if truthy is_new then 201 else 200 |};
           IdSiteCallbackResult.state := state |} /\
    st' = get_resource
            (_cache_put st (nonce_href irt) {[ "value" := irt ]}) sub.
Proof.
  destruct (handle_cases nonce_href self now url st)
    as [(o & -> & Hno)|(tok & j & api_key & irt & Htok & Hj & _ & _ & _ & Hirt
                        & _ & ->)].
  { intros ?; simplify_eq. by destruct (Hno r). }
  unfold run, bind, pure.
  destruct (callback_commit _ _ _ _) as [[o|r'] st1] eqn:Hcommit;
    intros ?; simplify_eq.
  { apply callback_commit_inl in Hcommit as [e ?]. done. }
  apply callback_commit_inr in Hcommit
    as (sub & is_new & state & acc & ? & ? & ? & ? & ? & -> & ->).
  by exists tok, j, irt, sub, is_new, state, acc.
Qed.


(** X13: the replay check goes by the nonce, not by the token: after a
    successful call, a callback whose token has the same nonce key is refused
    even when it is another token, with the replay error or, when it fails
    an earlier check, with [None]. *)
Theorem replay_is_per_nonce self now1 now2 url1 url2 st r st' :
  handle_id_site_callback nonce_href self now1 url1 st = (Return (Some r), st') ->
  nonce_key_of nonce_href url2 = nonce_key_of nonce_href url1 ->
  handle_id_site_callback nonce_href self now2 url2 st' = (Return None, st') \/
  handle_id_site_callback nonce_href self now2 url2 st'
  = (Raise (ValueError replay_message), st').
Proof.
  intros Hfirst Hkey.
  apply handle_success_inv in Hfirst
    as (tok1 & j1 & api_key1 & irt1 & sub1 & Htok1 & Hj1 & _ & _ & _
        & Hirt1 & _ & _ & ->).
  rewrite (nonce_key_of_token _ _ _ _ _ Htok1 Hj1 Hirt1) in Hkey.
  unfold nonce_key_of, callback_token in Hkey.
  rewrite handle_two_steps. unfold_method.
  unfold jwt_decode_unverified, jwt_decode.
  destruct (split "=" (urlparse_query url2) !! 1%nat) as [tok|]; simpl;
    [|by left].
  destruct (load tok) as [j|]; simpl; [|by left].
  destruct (truthy (dict_get (payload j) "aud")); simpl; [|by left].
  destruct (Application.get_key self _) as [api_key|]; simpl; [|by left].
  destruct (verify_signature j _ now2) as [e|]; simpl; [by left|].
  destruct (payload j !! "irt") as [irt|]; simpl in *; [|done].
  simplify_eq. rewrite Hkey, cached_after_commit. simpl.
  rewrite dict_truthy_singleton. by right.
Qed.

(** The outcome of a call depends on the store through one cache entry
    only, the one under the nonce key of the callback. *)
Lemma callback_check_outcome_frame self now url st1 st2 :
  (forall k, nonce_key_of nonce_href url = Some k ->
             cache st1 !! k = cache st2 !! k) ->
  fst (callback_check nonce_href self now url st1)
  = fst (callback_check nonce_href self now url st2).
Proof.
  intros Hsame. unfold_method.
  unfold jwt_decode_unverified, jwt_decode, nonce_key_of, callback_token,
    _cache_get in *.
  destruct (split "=" (urlparse_query url) !! 1%nat) as [tok|]; simpl; [|done].
  destruct (load tok) as [j|]; simpl; [|done].
  destruct (truthy (dict_get (payload j) "aud")); simpl; [|done].
  destruct (Application.get_key self _) as [api_key|]; simpl; [|done].
  destruct (verify_signature j _ now) as [e|]; simpl; [done|].
  destruct (payload j !! "irt") as [irt|]; simpl in *; [|done].
  rewrite <- (Hsame _ eq_refl). by destruct (cached_truthy _).
Qed.

Lemma handle_outcome_frame self now url st1 st2 :
  (forall k, nonce_key_of nonce_href url = Some k ->
             cache st1 !! k = cache st2 !! k) ->
  fst (handle_id_site_callback nonce_href self now url st1)
  = fst (handle_id_site_callback nonce_href self now url st2).
Proof.
  intros Hsame. rewrite !handle_two_steps.
  pose proof (callback_check_outcome_frame self now url st1 st2 Hsame) as Hfst.
  destruct (callback_check _ _ _ _ st1) as [[o1|[n1 d1]] s1],
    (callback_check _ _ _ _ st2) as [[o2|[n2 d2]] s2];
    simpl in Hfst; simplify_eq; [done|].
  unfold run, bind, pure. rewrite !callback_commit_spec. simpl.
  destruct (first_missing _ _); [done|].
  by destruct (Application.get_account _ _).
Qed.

(** X14: callbacks with different nonce keys do not get in each other's way: how
    the handler answers one of them is the same before and after it has
    handled the other. *)
Theorem other_nonces_do_not_interfere self now1 now2 url1 url2 st :
  nonce_key_of nonce_href url1 <> nonce_key_of nonce_href url2 ->
  fst (handle_id_site_callback nonce_href self now2 url2
         (snd (handle_id_site_callback nonce_href self now1 url1 st)))
  = fst (handle_id_site_callback nonce_href self now2 url2 st).
Proof.
  intros Hne. apply handle_outcome_frame. intros k Hk.
  destruct (handle_cases nonce_href self now1 url1 st)
    as [(o & -> & _)|(tok & j & api_key & irt & Htok & Hj & _ & _ & _ & Hirt
                      & _ & ->)]; [done|].
  rewrite (nonce_key_of_token _ _ _ _ _ Htok Hj Hirt) in Hne.
  destruct (commit_store self (Nonce nonce_href irt) (payload j) st)
    as [->| ->]; simpl; apply lookup_insert_ne; congruence.
Qed.

End Accepted.

(** ** The claims of a redirect token *)

Lemma app_inv_head_string s t u : s +:+ t = s +:+ u -> t = u.
Proof.
  induction s as [|c s IH]; [done|]. rewrite !app_cons. intros H.
  apply IH. congruence.
Qed.

Section RedirectClaims.
Context {codec : JwtCodec}.

Lemma jwt_encode_inj body1 key1 a1 body2 key2 a2 :
  jwt_encode body1 key1 a1 = jwt_encode body2 key2 a2 ->
  body1 = body2 /\ key1 = key2 /\ a1 = a2.
Proof.
  unfold jwt_encode. intros H. apply (f_equal load) in H.
  rewrite !load_compact in H. by simplify_eq.
Qed.

Lemma redirect_claims_fixed self utcnow uuid4_hex api_key callback_uri path state :
  let body := redirect_claims self utcnow uuid4_hex api_key callback_uri path state in
  body !! "iat" = Some (PInt utcnow) /\
  body !! "jti" = Some (PStr uuid4_hex) /\
  body !! "iss" = Some (PStr (ApiKey.id api_key)) /\
  body !! "sub" = Some (PStr (Application.href self)).
Proof.
  unfold redirect_claims.
  destruct (truthy path), (truthy state); by simplify_map_eq.
Qed.

(** X15: the redirect token says who asks and when, and nothing else: [iss] is
    the id of the API key, [sub] the href of the application, [jti] the
    identifier drawn for this redirect, [iat] the time of the call, and
    beside these and [cb_uri] it has at most [path] and [state].  It has no
    [aud], no [exp] and no other claim. *)
Theorem redirect_token_claims self utcnow uuid4_hex api_key callback_uri
    path state :
  exists tok claims,
    build_id_site_redirect_url self utcnow uuid4_hex api_key callback_uri
      path state = Return (redirect_url tok) /\
    jwt_decode_unverified tok = inr claims /\
    claims !! "iat" = Some (PInt utcnow) /\
    claims !! "jti" = Some (PStr uuid4_hex) /\
    claims !! "iss" = Some (PStr (ApiKey.id api_key)) /\
    claims !! "sub" = Some (PStr (Application.href self)) /\
    (forall k, is_Some (claims !! k) ->
       k ∈ ["iat"; "jti"; "iss"; "sub"; "cb_uri"; "path"; "state"]).
Proof.
  eexists _, _. rewrite build_spec. split; [done|].
  rewrite jwt_decode_unverified_encode. split; [done|].
  destruct (redirect_claims_fixed self utcnow uuid4_hex api_key callback_uri
              path state) as (? & ? & ? & ?).
  repeat split; try done.
  intros k [v Hv].
  destruct (decide (k ∈ ["iat"; "jti"; "iss"; "sub"; "cb_uri"; "path"; "state"]))
    as [|Hn]; [done|]. exfalso.
  repeat (apply not_elem_of_cons in Hn as [? Hn]).
  unfold redirect_claims in Hv.
  destruct (truthy path), (truthy state); by simplify_map_eq.
Qed.


End RedirectClaims.

(** ** The other methods *)



(** ** Callers with different nonces *)

Section Independence.
Context {codec : JwtCodec}.
Variable nonce_href : pyval -> string.

Local Arguments first_missing : simpl never.

(** A step of a caller depends on the store through the cache entry under
    the caller's key, and the next step will again. *)
Lemma thread_step_agree self t st1 st2 :
  (forall k, thread_key nonce_href t = Some k -> cache st1 !! k = cache st2 !! k) ->
  fst (thread_step nonce_href self t st1) = fst (thread_step nonce_href self t st2) /\
  (forall k, thread_key nonce_href (fst (thread_step nonce_href self t st1)) = Some k ->
     cache (snd (thread_step nonce_href self t st1)) !! k
     = cache (snd (thread_step nonce_href self t st2)) !! k).
Proof.
  intros Hsame. destruct t as [now url|nonce d|o]; simpl in *.
  - pose proof (callback_check_outcome_frame nonce_href self now url st1 st2 Hsame)
      as Hfst.
    pose proof (callback_check_frame nonce_href self now url st1) as Hf1.
    pose proof (callback_check_frame nonce_href self now url st2) as Hf2.
    destruct (callback_check _ _ _ _ st1) as [[o1|[n1 d1]] s1] eqn:Hc1,
      (callback_check _ _ _ _ st2) as [[o2|[n2 d2]] s2];
      simpl in *; simplify_eq; [done|].
    split; [done|]. intros k Hk. apply Hsame.
    apply callback_check_inr in Hc1
      as (_ & tok & j & api_key & irt & Htok & Hj & _ & _ & _ & _ & Hirt & -> & _).
    simpl in Hk. simplify_eq. by eapply nonce_key_of_token.
  - unfold run, bind, pure. rewrite !callback_commit_spec. simpl.
    destruct (first_missing _ _); [done|].
    by destruct (Application.get_account _ _).
  - done.
Qed.

(** A step of a caller leaves every other cache entry alone. *)
Lemma thread_step_other_keys self t st k :
  thread_key nonce_href t <> Some k ->
  cache (snd (thread_step nonce_href self t st)) !! k = cache st !! k.
Proof.
  intros Hk. destruct t as [now url|nonce d|o]; simpl in *; [| |done].
  - pose proof (callback_check_frame nonce_href self now url st) as Hf.
    destruct (callback_check _ _ _ _ st) as [[o|[n d]] s]; simpl in *; by subst.
  - pose proof (commit_store self nonce d st) as Hstore. simpl in Hstore.
    destruct (run _ st) as [o st']. simpl in *.
    destruct Hstore as [->| ->]; simpl; apply lookup_insert_ne; congruence.
Qed.

(** A caller keeps its key until it has finished. *)
Lemma thread_step_key self t st k :
  thread_key nonce_href (fst (thread_step nonce_href self t st)) = Some k ->
  thread_key nonce_href t = Some k.
Proof.
  destruct t as [now url|nonce d|o]; simpl; [| |done].
  - destruct (callback_check _ _ _ _ st) as [[o|[n d]] s] eqn:Hc; simpl; [done|].
    apply callback_check_inr in Hc
      as (_ & tok & j & api_key & irt & Htok & Hj & _ & _ & _ & _ & Hirt & -> & _).
    simpl. intros ?; simplify_eq. by eapply nonce_key_of_token.
  - by destruct (run _ st).
Qed.

Lemma interleave_solo self schedule t1 t2 st s1 s2 :
  (forall k, thread_key nonce_href t1 = Some k -> thread_key nonce_href t2 <> Some k) ->
  (forall k, thread_key nonce_href t1 = Some k -> cache st !! k = cache s1 !! k) ->
  (forall k, thread_key nonce_href t2 = Some k -> cache st !! k = cache s2 !! k) ->
  fst (fst (interleave nonce_href self schedule t1 t2 st))
  = fst (steps nonce_href self (turns First schedule) t1 s1) /\
  snd (fst (interleave nonce_href self schedule t1 t2 st))
  = fst (steps nonce_href self (turns Second schedule) t2 s2).
Proof.
  revert t1 t2 st s1 s2.
  induction schedule as [|[] schedule IH]; intros t1 t2 st s1 s2 Hdis H1 H2;
    simpl; [done|..].
  - destruct (thread_step_agree self t1 st s1 H1) as [Ht Hnext].
    pose proof (thread_step_key self t1 st) as Hkey.
    pose proof (thread_step_other_keys self t1 st) as Hother.
    destruct (thread_step _ _ t1 st) as [t1a sta],
      (thread_step _ _ t1 s1) as [t1b s1b]; simpl in *; subst t1b.
    apply IH; [|done|].
    + intros k Hk. apply Hdis. by apply Hkey.
    + intros k Hk. rewrite Hother; [by apply H2|].
      intros Hk1. by apply (Hdis k).
  - destruct (thread_step_agree self t2 st s2 H2) as [Ht Hnext].
    pose proof (thread_step_key self t2 st) as Hkey.
    pose proof (thread_step_other_keys self t2 st) as Hother.
    destruct (thread_step _ _ t2 st) as [t2a sta],
      (thread_step _ _ t2 s2) as [t2b s2b]; simpl in *; subst t2b.
    apply IH; [| |done].
    + intros k Hk Hk2. apply (Hdis k); [done|]. by apply Hkey.
    + intros k Hk. rewrite Hother; [by apply H1|].
      intros Hk2. by apply (Hdis k).
Qed.

(** X19: two callers whose callbacks have different nonce keys do not see each
    other: whatever the schedule, each of them ends where it would have
    ended had it taken its steps alone, starting from the same store. *)
Theorem callers_with_different_nonces_are_independent self schedule
    now1 now2 url1 url2 st :
  (forall k, nonce_key_of nonce_href url1 = Some k ->
             nonce_key_of nonce_href url2 <> Some k) ->
  let '(t1, t2, _) :=
    interleave nonce_href self schedule (Called now1 url1) (Called now2 url2) st in
  t1 = fst (steps nonce_href self (turns First schedule) (Called now1 url1) st) /\
  t2 = fst (steps nonce_href self (turns Second schedule) (Called now2 url2) st).
Proof.
  intros Hdis.
  pose proof (interleave_solo self schedule (Called now1 url1)
                (Called now2 url2) st st st Hdis
                (fun _ _ => eq_refl) (fun _ _ => eq_refl)) as H.
  by destruct (interleave _ _ _ _ _ _) as [[t1 t2] st'].
Qed.

End Independence.

(** ** More examples, run *)

Module MoreExamples.
Import Example.

(** The callback URL for a token with the given claims, signed under the
    application's key. *)
Definition url_of (claims : pydict) : string :=
  "http://localhost/?jwtResponse=" +:+ jwt_encode claims "SECRET" HS256.

Definition without_irt : pydict := delete "irt" fake_jwt_data.

Definition without_state : pydict := delete "state" fake_jwt_data.

(** Another token with the nonce of the example, and one with another. *)
Definition same_nonce : pydict := <["state" := PStr "again"]> fake_jwt_data.

Definition other_irt : string := "c41d8cd98f00b204e9800998ecf8427e".

Definition other_nonce : pydict := <["irt" := PStr other_irt]> fake_jwt_data.

(** The example application with an account collection that retrieves
    nothing. *)
Definition app_without_accounts : Application.t :=
  {| Application.href := Application.href app;
     Application.get_key := Application.get_key app;
     Application.get_account := fun _ => None |}.

(** The store once the nonce of the example is in it and nothing has been
    requested. *)
Definition store_with_nonce : DataStore :=
  {| cache := {[ nonce_href (PStr irt) := {[ "value" := PStr irt ]} ]};
     requested := [] |}.

End MoreExamples.

Section MoreExamplesRun.
Import Example MoreExamples.

Abbreviation handle' := (handle_id_site_callback (codec := bits_codec) nonce_href).
Abbreviation token := (jwt_encode (codec := bits_codec) fake_jwt_data "SECRET" HS256).



Lemma url_without_equals_sign_witness :
  handle' app 100 "http://localhost/?jwtResponse" empty_store
  = (Return None, empty_store).
Proof.
  exact (url_without_equals_sign nonce_href app 100
           "http://localhost/?jwtResponse" empty_store eq_refl).
Defined.

Lemma fragment_is_ignored_witness :
  occurs "#" callback_url = false /\
  handle' app 100 (callback_url +:+ "#" +:+ "top") empty_store
  = handle' app 100 callback_url empty_store.
Proof.
  assert (H : occurs "#" callback_url = false) by (vm_compute; reflexivity).
  exact (conj H (fragment_is_ignored nonce_href app 100 callback_url "top"
                   empty_store H)).
Defined.




Lemma stored_nonces_are_kept_witness :
  cache store_after !! nonce_href (PStr irt) = Some {[ "value" := PStr irt ]} /\
  dict_truthy {[ "value" := PStr irt ]} = true /\
  cache (snd (handle' app 100 (url_of other_nonce) store_after))
    !! nonce_href (PStr irt)
  = Some {[ "value" := PStr irt ]}.
Proof.
  assert (H1 : cache store_after !! nonce_href (PStr irt)
               = Some {[ "value" := PStr irt ]})
    by (vm_compute; reflexivity).
  assert (H2 : dict_truthy {[ "value" := PStr irt ]} = true)
    by (vm_compute; reflexivity).
  exact (conj H1 (conj H2
    (stored_nonces_are_kept nonce_href app 100 (url_of other_nonce) _ _ _ H1 H2))).
Defined.

(** The call on the token without [state] ends in [KeyError]; the call
    after it is refused as a replay all the same. *)
Lemma nonce_is_spent_once_stored_witness :
  handle' app 100 (url_of without_state) empty_store
  = (Raise (KeyError "state"), store_with_nonce) /\
  handle' app 200 (url_of without_state) store_with_nonce
  = (Raise (ValueError replay_message), store_with_nonce).
Proof.
  assert (E : handle' app 100 (url_of without_state) empty_store
              = (Raise (KeyError "state"), store_with_nonce))
    by (vm_compute; reflexivity).
  split; [exact E|].
  pose proof (nonce_is_spent_once_stored nonce_href app 100 200
                (url_of without_state) empty_store) as H.
  simpl in H. rewrite E in H. apply H.
  - apply map_non_empty_singleton.
  - vm_compute; discriminate.
Defined.

Lemma accepted_callback_result_witness :
  handle' app 100 callback_url empty_store = (Return (Some accepted), store_after) /\
  exists tok j irt sub is_new state acc,
    callback_token callback_url = Some tok /\ load tok = Some j /\
    payload j !! "irt" = Some irt /\ payload j !! "sub" = Some sub /\
    payload j !! "isNewSub" = Some is_new /\
    payload j !! "state" = Some state /\
    Application.get_account app sub = Some acc /\
    accepted
    = {| IdSiteCallbackResult.account :=
           {| Account.href := Account.href acc;
              Account.sp_http_status := if truthy is_new then 201 else 200 |};
         IdSiteCallbackResult.state := state |} /\
    store_after
    = get_resource
        (_cache_put empty_store (nonce_href irt) {[ "value" := irt ]}) sub.
Proof.
  assert (H : handle' app 100 callback_url empty_store
              = (Return (Some accepted), store_after))
    by (vm_compute; reflexivity).
  exact (conj H (accepted_callback_result _ _ _ _ _ _ _ H)).
Defined.


Lemma replay_is_per_nonce_witness :
  handle' app 100 callback_url empty_store = (Return (Some accepted), store_after) /\
  nonce_key_of nonce_href (url_of same_nonce) = nonce_key_of nonce_href callback_url /\
  (handle' app 200 (url_of same_nonce) store_after = (Return None, store_after) \/
   handle' app 200 (url_of same_nonce) store_after
   = (Raise (ValueError replay_message), store_after)).
Proof.
  assert (H1 : handle' app 100 callback_url empty_store
               = (Return (Some accepted), store_after))
    by (vm_compute; reflexivity).
  assert (H2 : nonce_key_of nonce_href (url_of same_nonce)
               = nonce_key_of nonce_href callback_url)
    by (vm_compute; reflexivity).
  exact (conj H1 (conj H2 (replay_is_per_nonce _ _ _ 200 _ _ _ _ _ H1 H2))).
Defined.

Lemma other_nonces_do_not_interfere_witness :
  nonce_key_of nonce_href callback_url <> nonce_key_of nonce_href (url_of other_nonce) /\
  fst (handle' app 200 (url_of other_nonce)
         (snd (handle' app 100 callback_url empty_store)))
  = fst (handle' app 200 (url_of other_nonce) empty_store).
Proof.
  assert (H : nonce_key_of nonce_href callback_url
              <> nonce_key_of nonce_href (url_of other_nonce))
    by (vm_compute; discriminate).
  exact (conj H (other_nonces_do_not_interfere _ _ _ _ _ _ _ H)).
Defined.


(** Both callers succeed under the schedule that lets two callers of the
    same token through, because their tokens have different nonces. *)
Lemma callers_with_different_nonces_are_independent_witness :
  (forall k, nonce_key_of nonce_href callback_url = Some k ->
             nonce_key_of nonce_href (url_of other_nonce) <> Some k) /\
  let '(t1, t2, _) :=
    interleave nonce_href app [First; Second; First; Second]
      (Called 100 callback_url) (Called 100 (url_of other_nonce)) empty_store in
  t1 = fst (steps nonce_href app 2 (Called 100 callback_url) empty_store) /\
  t2 = fst (steps nonce_href app 2 (Called 100 (url_of other_nonce)) empty_store).
Proof.
  assert (H : forall k, nonce_key_of nonce_href callback_url = Some k ->
                nonce_key_of nonce_href (url_of other_nonce) <> Some k).
  { intros k Hk Hk'. rewrite <- Hk' in Hk. revert Hk.
    vm_compute; discriminate. }
  exact (conj H (callers_with_different_nonces_are_independent nonce_href app
                   [First; Second; First; Second] 100 100 _ _ empty_store H)).
Defined.

End MoreExamplesRun.
